(** * umai: configuration reader, host allow-list middleware, object-storage
      service and menu query hook

    A shallow embedding of
      - backend/src/common/config/config.service.ts   (AppConfigService)
      - backend/src/common/middleware/security.middleware.ts
      - backend/src/common/s3/s3.service.ts           (S3Service)
      - frontend/src/modules/menu/services/menu.service.ts
    and the properties of them that the specification states.

    JavaScript strings are sequences of UTF-16 code units.  They are modelled
    by [string], a character standing for the code unit of the same number, so
    the model covers the strings whose code units lie in U+0000..U+00FF. *)

From Stdlib Require Import Bool Arith NArith Lia List.
From Stdlib Require Import Ascii String.
Import ListNotations.
Open Scope list_scope.
Open Scope string_scope.

(* ================================================================== *)
(** * String primitives of the JavaScript runtime *)
(* ================================================================== *)

Module JsString.

(** The double quote, for the few literals that contain one. *)
Definition dquote : string := String (ascii_of_nat 34) EmptyString.

(** WhiteSpace and LineTerminator code units (ECMAScript 12.2, 12.3) in the
    modelled range: TAB, LF, VT, FF, CR, SP and NBSP. *)
Definition isWhiteSpace (c : ascii) : bool :=
  let n := nat_of_ascii c in
  (((9 <=? n) && (n <=? 13)) || (n =? 32) || (n =? 160))%nat.

(** [String.prototype.toLowerCase] on one code unit: A-Z and the Latin-1
    capitals U+00C0..U+00DE (U+00D7, the multiplication sign, excepted). *)
Definition lowerChar (c : ascii) : ascii :=
  let n := nat_of_ascii c in
  if (((65 <=? n) && (n <=? 90))
      || ((192 <=? n) && (n <=? 222) && negb (n =? 215)))%nat
  then ascii_of_nat (n + 32)
  else c.

Fixpoint toLowerCase (s : string) : string :=
  match s with
  | EmptyString => EmptyString
  | String c s' => String (lowerChar c) (toLowerCase s')
  end.

Definition isEmpty (s : string) : bool :=
  match s with EmptyString => true | String _ _ => false end.

Fixpoint trimStart (s : string) : string :=
  match s with
  | EmptyString => EmptyString
  | String c s' => if isWhiteSpace c then trimStart s' else s
  end.

Fixpoint trimEnd (s : string) : string :=
  match s with
  | EmptyString => EmptyString
  | String c s' =>
      let t := trimEnd s' in
      if isWhiteSpace c && isEmpty t then EmptyString else String c t
  end.

(** [String.prototype.trim]. *)
Definition trim (s : string) : string := trimEnd (trimStart s).

(** [s.split(sep)] for a separator of one code unit.  The array always has
    at least one element. *)
Fixpoint split (sep : ascii) (s : string) : list string :=
  match s with
  | EmptyString => [EmptyString]
  | String c s' =>
      if Ascii.eqb c sep then EmptyString :: split sep s'
      else match split sep s' with
           | h :: t => String c h :: t
           | [] => [String c EmptyString]
           end
  end.

(** [arr[0]] on an array of strings; [None] is [undefined]. *)
Definition first (l : list string) : option string :=
  match l with
  | [] => None
  | h :: _ => Some h
  end.

(** [arr.includes(x)] on an array of strings. *)
Definition includes (l : list string) (x : string) : bool :=
  existsb (String.eqb x) l.

(** [s.endsWith(suffix)]. *)
Definition endsWith (s suffix : string) : bool :=
  let n := String.length s in
  let m := String.length suffix in
  (m <=? n)%nat && String.eqb (substring (n - m) m s) suffix.

(** Truthiness of a string: only the empty string is falsy. *)
Definition truthy (s : string) : bool := negb (isEmpty s).

End JsString.
Import JsString.

(* ================================================================== *)
(** * config.service.ts *)
(* ================================================================== *)

Module Config.

(** [NestConfigService], loaded by [ConfigModule.forRoot({ isGlobal: true })]
    with no custom loader: [config.get(key)] is the environment variable,
    a string, or [undefined] ([None]). *)
Definition NestConfigService := string -> option string.

(** A value that is a string at run time although a getter types it as
    boolean ([S3_PATH_STYLE]). *)
Inductive StringOrBoolean :=
| IsString (s : string)
| IsBoolean (b : bool).

Record DatabaseConfig := { database_url : option string }.

Record JwtConfig := { secret : string; expiresIn : string }.

Record ClientConfig := { client_url : string; cookieDomain : string }.

Record SecurityConfig := {
  backendCorsOrigins : list string;
  allowedHosts : list string
}.

Record S3Config := {
  accessEndpoint : string;
  responseEndpoint : string;
  region : string;
  accessKeyId : string;
  secretAccessKey : string;
  bucket : string;
  imagePrefix : string;
  usePathStyle : StringOrBoolean
}.

Section Get.
Variable config : NestConfigService.
Context {T : Type}.
(** The unchecked cast [normalized as unknown as T]. *)
Variable cast : string -> T.

Definition getRaw (key : string) : option T :=
  match config key with
  | Some raw =>
      let normalized := trim raw in
      if negb (truthy normalized) then None
      else Some (cast normalized)
  | None => None
  end.

(** [get(key, defaultValue?)]; the result is [undefined] only through
    the last line, [this.config.get<T>(key)!]. *)
Definition get (key : string) (defaultValue : option T) : option T :=
  match getRaw key with
  | Some raw => Some raw
  | None =>
      match defaultValue with
      | Some d => Some d
      | None => option_map cast (config key)
      end
  end.

(** [get(key, d)] at a call site that passes a default: the value of
    type [T] the signature promises. *)
Definition getOr (key : string) (d : T) : T :=
  match get key (Some d) with
  | Some v => v
  | None => d
  end.
End Get.

(** [getBoolean(key, defaultValue)], with [raw : string | boolean]. *)
Definition getBoolean (config : NestConfigService) (key : string)
    (defaultValue : bool) : bool :=
  match getRaw config IsString key with
  | Some (IsBoolean raw) => raw
  | Some (IsString raw) =>
      let normalized := toLowerCase (trim raw) in
      if negb (truthy normalized) then defaultValue
      else includes ["1"; "true"; "yes"; "y"; "on"] normalized
  | None => defaultValue
  end.

Definition str : string -> string := fun s => s.

Section Getters.
Variable this : NestConfigService.

Definition database : DatabaseConfig :=
  {| database_url := get this str "DATABASE_URL" None |}.

Definition jwt : JwtConfig :=
  {| secret := getOr this str "JWT_SECRET" "changeme";
     expiresIn := getOr this str "JWT_EXPIRATION" "720h" |}.

(** [new URL(url).hostname]: the host name of [url], or [None] when the
    constructor throws a TypeError for a string it cannot parse.  The parser
    is the platform's. *)
Variable URL_hostname : string -> option string.

(** The [client] getter; [None] when [new URL(url)] throws. *)
Definition client : option ClientConfig :=
  let url := getOr this str "CLIENT_URL" "http://localhost:3000" in
  match URL_hostname url with
  | Some hostname => Some {| client_url := url; cookieDomain := hostname |}
  | None => None
  end.

Definition s3 : S3Config :=
  {| accessEndpoint :=
       getOr this str "S3_ACCESS_ENDPOINT" "http://localhost:9000";
     responseEndpoint :=
       getOr this str "S3_RESPONSE_ENDPOINT" "http://localhost:9000";
     region := getOr this str "S3_REGION" "ap-northeast-2";
     accessKeyId := getOr this str "S3_ACCESS_KEY" "minio";
     secretAccessKey := getOr this str "S3_SECRET_KEY" "minio123";
     bucket := getOr this str "S3_BUCKET" "jinaq-media";
     imagePrefix := getOr this str "S3_IMAGE_PREFIX" "images";
     usePathStyle :=
       getOr this IsString "S3_PATH_STYLE" (IsBoolean true) |}.

Definition nodeEnv : string :=
  getOr this str "NODE_ENVIRONMENT" "development".

Definition isProduction : bool :=
  String.eqb nodeEnv "production".

Definition security : SecurityConfig :=
  let whitelist :=
    filter truthy
      (map (fun ip => trim ip)
         (split "," (getOr this str "SECURITY_ALLOWED_HOSTS" ""))) in
  {| backendCorsOrigins :=
       split "," (getOr this str "SECURITY_BACKEND_CORS_ORIGINS" "");
     allowedHosts := whitelist |}.
End Getters.

(** The getters that return the string they read, with the variable each
    reads and the default it declares. *)
Inductive Getter :=
| JwtSecret | JwtExpiresIn
| S3AccessEndpoint | S3ResponseEndpoint | S3Region
| S3AccessKeyId | S3SecretAccessKey | S3Bucket | S3ImagePrefix
| NodeEnv.

Definition envKey (g : Getter) : string :=
  match g with
  | JwtSecret => "JWT_SECRET"
  | JwtExpiresIn => "JWT_EXPIRATION"
  | S3AccessEndpoint => "S3_ACCESS_ENDPOINT"
  | S3ResponseEndpoint => "S3_RESPONSE_ENDPOINT"
  | S3Region => "S3_REGION"
  | S3AccessKeyId => "S3_ACCESS_KEY"
  | S3SecretAccessKey => "S3_SECRET_KEY"
  | S3Bucket => "S3_BUCKET"
  | S3ImagePrefix => "S3_IMAGE_PREFIX"
  | NodeEnv => "NODE_ENVIRONMENT"
  end.

Definition declaredDefault (g : Getter) : string :=
  match g with
  | JwtSecret => "changeme"
  | JwtExpiresIn => "720h"
  | S3AccessEndpoint => "http://localhost:9000"
  | S3ResponseEndpoint => "http://localhost:9000"
  | S3Region => "ap-northeast-2"
  | S3AccessKeyId => "minio"
  | S3SecretAccessKey => "minio123"
  | S3Bucket => "jinaq-media"
  | S3ImagePrefix => "images"
  | NodeEnv => "development"
  end.

(** The value the service's getter returns. *)
Definition read (this : NestConfigService) (g : Getter) : string :=
  match g with
  | JwtSecret => secret (jwt this)
  | JwtExpiresIn => expiresIn (jwt this)
  | S3AccessEndpoint => accessEndpoint (s3 this)
  | S3ResponseEndpoint => responseEndpoint (s3 this)
  | S3Region => region (s3 this)
  | S3AccessKeyId => accessKeyId (s3 this)
  | S3SecretAccessKey => secretAccessKey (s3 this)
  | S3Bucket => bucket (s3 this)
  | S3ImagePrefix => imagePrefix (s3 this)
  | NodeEnv => nodeEnv this
  end.

(** An environment value that is [undefined] or a string that trims to the
    empty string. *)
Definition unsetOrBlank (v : option string) : Prop :=
  match v with
  | None => True
  | Some s => trim s = ""
  end.

(** An environment given by a list of bindings, the first one for a name
    winning; used to write concrete configurations. *)
Fixpoint env (bindings : list (string * string)) : NestConfigService :=
  fun key =>
    match bindings with
    | [] => None
    | (k, v) :: rest => if String.eqb key k then Some v else env rest key
    end.

End Config.

(* ================================================================== *)
(** * security.middleware.ts *)
(* ================================================================== *)

Module Security.
Import Config.

(** The part of a [FastifyRequest] the middleware reads:
    [req.headers.host], a string or [undefined]. *)
Record FastifyRequest := { headers_host : option string }.

Inductive HttpException :=
| BadRequestException (message : string).

Definition invalidHost : HttpException :=
BadRequestException "Invalid Host Header".

(** Truthiness of [string | undefined]. *)
Definition truthyOpt (v : option string) : bool :=
  match v with
  | Some s => truthy s
  | None => false
  end.

(** [allowedHosts.includes(host)] for [host : string | undefined]. *)
Definition includesOpt (l : list string) (v : option string) : bool :=
  match v with
  | Some s => includes l s
  | None => false
  end.

(** [use(req, res, next)]: [inl e] when [e] is thrown, [inr] the result of
    [next()] otherwise. *)
Definition use {A : Type} (appConfigService : NestConfigService)
    (req : FastifyRequest) (next : unit -> A) : HttpException + A :=
  let allowedHosts := allowedHosts (security appConfigService) in
  let host :=
    match headers_host req with
    | Some h => first (split ":" h)
    | None => None
    end in
  if (0 <? List.length allowedHosts)%nat
     && truthyOpt host
     && negb (includesOpt allowedHosts host)
  then inl invalidHost
  else inr (next tt).

End Security.

(* ================================================================== *)
(** * JSON.stringify, for the bucket policy document *)
(* ================================================================== *)

Module Json.

Set Warnings "-register-all".

Inductive value :=
| JString (s : string)
| JArray (elements : list value)
| JObject (members : list (string * value)).

Definition backslash : string := String (ascii_of_nat 92) EmptyString.

Definition hexDigit (n : nat) : string :=
  String (ascii_of_nat (if (n <? 10)%nat then 48 + n else 87 + n)) EmptyString.

(** One code unit of QuoteJSONString (ECMAScript 25.5.2.3). *)
Definition escapeChar (c : ascii) : string :=
  let n := nat_of_ascii c in
  if (n =? 8)%nat then backslash ++ "b"
  else if (n =? 9)%nat then backslash ++ "t"
  else if (n =? 10)%nat then backslash ++ "n"
  else if (n =? 12)%nat then backslash ++ "f"
  else if (n =? 13)%nat then backslash ++ "r"
  else if (n =? 34)%nat then backslash ++ dquote
  else if (n =? 92)%nat then backslash ++ backslash
  else if (n <? 32)%nat
       then backslash ++ "u00" ++ hexDigit (n / 16) ++ hexDigit (n mod 16)
  else String c EmptyString.

Fixpoint escape (s : string) : string :=
  match s with
  | EmptyString => EmptyString
  | String c s' => escapeChar c ++ escape s'
  end.

Definition quote (s : string) : string := dquote ++ escape s ++ dquote.

(** [JSON.stringify(v)] with no indentation. *)
Fixpoint stringify (v : value) : string :=
  match v with
  | JString s => quote s
  | JArray elements =>
      "[" ++
      (fix items (l : list value) : string :=
         match l with
         | [] => ""
         | [x] => stringify x
         | x :: rest => stringify x ++ "," ++ items rest
         end) elements
      ++ "]"
  | JObject members =>
      "{" ++
      (fix fields (l : list (string * value)) : string :=
         match l with
         | [] => ""
         | [(k, x)] => quote k ++ ":" ++ stringify x
         | (k, x) :: rest => quote k ++ ":" ++ stringify x ++ "," ++ fields rest
         end) members
      ++ "}"
  end.

End Json.

(* ================================================================== *)
(** * s3.service.ts *)
(* ================================================================== *)

Module S3.
Import Config.

(** What a rejected SDK promise carries: an [Error] with its stack, or any
    other value. *)
Inductive Thrown :=
| ThrownError (stack : option string)
| ThrownTypeError
| ThrownValue (v : string).

Definition instanceofError (t : Thrown) : bool :=
  match t with
  | ThrownError _ | ThrownTypeError => true
  | ThrownValue _ => false
  end.

Definition stackOf (t : Thrown) : option string :=
  match t with
  | ThrownError st => st
  | ThrownTypeError | ThrownValue _ => None
  end.

(** The [params] of an [Upload]. *)
Record UploadParams := {
  Bucket : string;
  Key : string;
  Body : string;
  ContentType : option string;
  ContentDisposition : option string;
  ACL : option string
}.

(** The requests the service makes to the object store: the commands it
    passes to [client.send] and the uploads it runs to completion
    ([new Upload(..).done()]). *)
Inductive Command :=
| HeadBucketCommand (bucket : string)
| CreateBucketCommand (bucket : string)
| PutBucketPolicyCommand (bucket : string) (policy : string)
| DeleteObjectCommand (bucket : string) (key : string)
| Upload (params : UploadParams).

Inductive Level := LOG | ERROR | WARN | DEBUG.

(** The message templates of the service, with their arguments. *)
Inductive Message :=
| BucketAlreadyExists (bucket : string)
| BucketNotFoundCreating (bucket : string)
| BucketCreated (bucket : string)
| BucketPolicySet (bucket : string)
| FailedToSetBucketPolicy (bucket : string)
| EnsuredPrefixObject (key : string)
| FailedToEnsurePrefix (key : string)
| SanitizedDangerousContentType (contentType : string)
| Uploaded (bucket key : string)
| Deleted (bucket key : string).

Record LogEntry := {
  level : Level;
  message : Message;
  trace : option string
}.

(** The observable state: the requests issued so far and the lines logged so
    far, oldest first. *)
Record World := {
  issued : list Command;
  logged : list LogEntry
}.

Definition initial : World := {| issued := []; logged := [] |}.

(** The outcome of an awaited promise. *)
Inductive Outcome (A : Type) :=
| Fulfilled (a : A)
| Rejected (t : Thrown).
Arguments Fulfilled {A} a.
Arguments Rejected {A} t.

Definition M (A : Type) : Type := World -> Outcome A * World.

Definition ret {A} (a : A) : M A := fun w => (Fulfilled a, w).

Definition throw {A} (t : Thrown) : M A := fun w => (Rejected t, w).

Definition bind {A B} (m : M A) (k : A -> M B) : M B :=
  fun w =>
    match m w with
    | (Fulfilled a, w') => k a w'
    | (Rejected t, w') => (Rejected t, w')
    end.

(** [try { body } catch (e) { handler(e) }]. *)
Definition tryCatch {A} (body : M A) (handler : Thrown -> M A) : M A :=
  fun w =>
    match body w with
    | (Fulfilled a, w') => (Fulfilled a, w')
    | (Rejected t, w') => handler t w'
    end.

Notation "x <- m ;; k" := (bind m (fun x => k))
  (at level 61, m at next level, right associativity).
Notation "m ;; k" := (bind m (fun _ => k))
  (at level 61, right associativity).

Definition logger (l : Level) (m : Message) (st : option string) : M unit :=
  fun w =>
    (Fulfilled tt,
     {| issued := issued w;
        logged := (logged w ++ [{| level := l; message := m; trace := st |}])%list |}).

Section Service.

(** The object store: whether a request fails, and with what, given the
    requests made before it. *)
Variable store : list Command -> Command -> option Thrown.

(** [await this.client.send(cmd)] and [await new Upload(..).done()]. *)
Definition send (cmd : Command) : M unit :=
  fun w =>
    let w' := {| issued := (issued w ++ [cmd])%list; logged := logged w |} in
    match store (issued w) cmd with
    | None => (Fulfilled tt, w')
    | Some t => (Rejected t, w')
    end.

Variable cfg : S3Config.

Definition ensureBucketExists (bucket : string) : M unit :=
  tryCatch
    (send (HeadBucketCommand bucket) ;;
     logger LOG (BucketAlreadyExists bucket) None)
    (fun _ =>
       logger LOG (BucketNotFoundCreating bucket) None ;;
       send (CreateBucketCommand bucket) ;;
       logger LOG (BucketCreated bucket) None).

Definition policyDocument (bucket : string) : Json.value :=
  Json.JObject
    [("Version", Json.JString "2012-10-17");
     ("Statement",
      Json.JArray
        [Json.JObject
           [("Effect", Json.JString "Allow");
            ("Principal", Json.JObject [("AWS", Json.JArray [Json.JString "*"])]);
            ("Action", Json.JArray [Json.JString "s3:GetObject"]);
            ("Resource",
             Json.JArray [Json.JString ("arn:aws:s3:::" ++ bucket ++ "/*")])]])].

(** The handler shared by the two catch blocks that log and do not
    rethrow: with the stack when the value is an [Error]. *)
Definition logFailure (m : Message) (error : Thrown) : M unit :=
  if instanceofError error then logger ERROR m (stackOf error)
  else logger ERROR m None.

Definition ensureBucketPolicy (bucket : string) : M unit :=
  tryCatch
    (let policy := policyDocument bucket in
     send (PutBucketPolicyCommand bucket (Json.stringify policy)) ;;
     logger LOG (BucketPolicySet bucket) None)
    (fun error => logFailure (FailedToSetBucketPolicy bucket) error).

Definition prefixObject (key : string) : UploadParams :=
  {| Bucket := bucket cfg; Key := key; Body := "";
     ContentType := None; ContentDisposition := None; ACL := None |}.

Definition ensurePrefixObject (prefix : string) : M unit :=
  let key := if endsWith prefix "/" then prefix else prefix ++ "/" in
  tryCatch
    (send (Upload (prefixObject key)) ;;
     logger LOG (EnsuredPrefixObject key) None)
    (fun error => logFailure (FailedToEnsurePrefix key) error).

Definition onModuleInit : M unit :=
  ensureBucketExists (bucket cfg) ;;
  ensureBucketPolicy (bucket cfg) ;;
  ensurePrefixObject (imagePrefix cfg).

Definition dangerous : list string :=
  ["text/html"; "application/xhtml+xml"; "image/svg+xml"; "text/xml";
   "application/xml"].

Definition sanitizeContentType (contentType : string) : M string :=
  match first (split ";" (toLowerCase contentType)) with
  | None => throw ThrownTypeError
  | Some part =>
      let normalized := trim part in
      if includes dangerous normalized then
        logger WARN (SanitizedDangerousContentType contentType) None ;;
        ret "text/plain"
      else ret contentType
  end.

Definition uploadObject (key body contentType : string) : M string :=
  sanitizedContentType <- sanitizeContentType contentType ;;
  send (Upload {| Bucket := bucket cfg; Key := key; Body := body;
                  ContentType := Some sanitizedContentType;
                  ContentDisposition := Some "inline";
                  ACL := Some "public-read" |}) ;;
  logger DEBUG (Uploaded (bucket cfg) key) None ;;
  ret key.

Definition uploadImage (filename body contentType : string) : M string :=
  let key := imagePrefix cfg ++ "/" ++ filename in
  uploadObject key body contentType.

Definition delete (key : string) : M unit :=
  send (DeleteObjectCommand (bucket cfg) key) ;;
  logger DEBUG (Deleted (bucket cfg) key) None.

End Service.

(** An object store in which the bucket exists and every other request
    fails. *)
Definition failingAfterHead (_ : list Command) (c : Command)
  : option Thrown :=
  match c with
  | HeadBucketCommand _ => None
  | _ => Some (ThrownError (Some "AccessDenied"))
  end.

(** An object store in which every request fails. *)
Definition failing (_ : list Command) (_ : Command) : option Thrown :=
  Some (ThrownError None).

(** [Boolean(v)] for a value that is a string or a boolean. *)
Definition Boolean (v : StringOrBoolean) : bool :=
  match v with
  | IsString s => truthy s
  | IsBoolean b => b
  end.

(** The [S3ClientConfig] the constructor builds from [this.cfg]. *)
Record S3ClientConfig := {
  client_endpoint : string;
  client_region : string;
  credentials_accessKeyId : string;
  credentials_secretAccessKey : string;
  forcePathStyle : bool
}.

Definition clientConfig (cfg : S3Config) : S3ClientConfig :=
  {| client_endpoint := accessEndpoint cfg;
     client_region := region cfg;
     credentials_accessKeyId := accessKeyId cfg;
     credentials_secretAccessKey := secretAccessKey cfg;
     forcePathStyle := Boolean (usePathStyle cfg) |}.

(** The bucket a request addresses. *)
Definition bucketOf (c : Command) : string :=
  match c with
  | HeadBucketCommand b | CreateBucketCommand b
  | PutBucketPolicyCommand b _ | DeleteObjectCommand b _ => b
  | Upload params => Bucket params
  end.

(** The service as the module system builds it: [cfg] is [config.s3]. *)
Definition onModuleInitOf (store : list Command -> Command -> option Thrown)
    (config : NestConfigService) : M unit :=
  onModuleInit store (s3 config).

End S3.

(* ================================================================== *)
(** * menu.service.ts *)
(* ================================================================== *)

Module Menu.

Inductive Method := GET | POST | PUT | PATCH | HEAD | DELETE.

Record Request := { method : Method; url : string }.

(** Vue refs: a ref is a cell of a store of strings, and reading [.value]
    reads the store as it is at that moment. *)
Definition Ref := nat.
Definition Refs := Ref -> string.

(** [MaybeRef<string>]. *)
Inductive MaybeRef :=
| Plain (s : string)
| IsRef (r : Ref).

Definition unref (refs : Refs) (m : MaybeRef) : string :=
  match m with
  | Plain s => s
  | IsRef r => refs r
  end.

Definition setRef (refs : Refs) (r : Ref) (v : string) : Refs :=
  fun r' => if Nat.eqb r' r then v else refs r'.

Definition QueryKey := list string.

(** Two query keys name the same cache entry when they are equal element by
    element. *)
Fixpoint keyEqb (k1 k2 : QueryKey) : bool :=
  match k1, k2 with
  | [], [] => true
  | a :: k1', b :: k2' => String.eqb a b && keyEqb k1' k2'
  | _, _ => false
  end.

Section Service.

(** The payload type [Menu], the HTTP exchange behind [ky] and the [.json()]
    of its response. *)
Variable Menu : Type.
Variable Response : Type.
Variable http : Request -> Response.
Variable json : Response -> Menu.

(** [ky(input)] called with no options: the method is the library's
    default, [get]. *)
Definition ky (input : string) : Response :=
  http {| method := GET; url := input |}.

Definition baseUrl : string := "/api/v1/menu".

Definition getMenu (restaurantId : string) : Menu :=
  json (ky (baseUrl ++ "/" ++ restaurantId)).

Definition MENU_QUERY_KEYS_all : QueryKey := ["menu"].

Definition MENU_QUERY_KEYS_byRestaurant (restaurantId : string) : QueryKey :=
  (MENU_QUERY_KEYS_all ++ [restaurantId])%list.

(** The options object passed to [useQuery]: [queryKey] is a plain array,
    [queryFn] a closure that is run at each fetch, in the store of that
    moment. *)
Record QueryOptions := {
  queryKey : QueryKey;
  queryFn : Refs -> Menu
}.

(** [useGetMenu(restaurantId)], called in the store [refs]. *)
Definition useGetMenu (refs : Refs) (restaurantId : MaybeRef) : QueryOptions :=
  let resolvedRestaurantId := fun now : Refs => unref now restaurantId in
  {| queryKey := MENU_QUERY_KEYS_byRestaurant (resolvedRestaurantId refs);
     queryFn := fun now => getMenu (resolvedRestaurantId now) |}.

(** The query cache of the client library: a fetch runs [queryFn] and files
    the result under [queryKey]. *)
Definition QueryCache := list (QueryKey * Menu).

Definition fetch (q : QueryOptions) (now : Refs) (cache : QueryCache)
  : QueryCache :=
  (queryKey q, queryFn q now) :: cache.

Fixpoint cached (cache : QueryCache) (key : QueryKey) : option Menu :=
  match cache with
  | [] => None
  | (k, v) :: rest =>
      if keyEqb k key then Some v else cached rest key
  end.

End Service.

End Menu.

(* ================================================================== *)
(** * main.ts *)
(* ================================================================== *)

Module Main.
Import Config.

(** [process.env.SERVER_PORT ?? 8080]: the variable, a string, or the
    number 8080. *)
Inductive Port :=
| PortString (s : string)
| PortNumber (n : N).

Record CookieOptions := {
  cookie_secret : option string;
  httpOnly : bool;
  secure : bool;
  sameSite : string
}.

(** [hsts]: an options object, or [false]. *)
Inductive Hsts :=
| HstsOff
| HstsOn (maxAge : N) (includeSubDomains preload : bool).

(** [contentSecurityPolicy] is [undefined] ([None], the plugin's own
    policy) or [false]. *)
Record HelmetOptions := {
  contentSecurityPolicy : option bool;
  crossOriginResourcePolicy : string;
  referrerPolicy : string;
  hsts : Hsts;
  global : bool
}.

Record CorsOptions := {
  origin : list string;
  methods : list string;
  credentials : bool;
  allowedHeaders : list string;
  exposedHeaders : list string
}.

Record ValidationPipeOptions := {
  whitelist : bool;
  forbidNonWhitelisted : bool;
  transform : bool;
  enableImplicitConversion : bool;
  disableErrorMessages : bool
}.

(** What [bootstrap] does to the application, one constructor per call. *)
Inductive Step :=
| SetGlobalPrefix (prefix : string)
| RegisterCookie (o : CookieOptions)
| RegisterHelmet (o : HelmetOptions)
| RegisterCors (o : CorsOptions)
| RegisterCompress
| RegisterMultipart
| UseGlobalPipes (o : ValidationPipeOptions)
| UseLogger
| RegisterSwagger (title version : string)
| RegisterSwaggerUi (routePrefix : string)
| OnSignal (signal : string)
| Listen (port : Port) (host : string).

(** The calls of [bootstrap], in order, when none of them fails (the two
    closing log lines are left out).  [appConfig] is the configuration
    service, [processEnv] is [process.env]. *)
Definition bootstrap (appConfig : NestConfigService)
    (processEnv : string -> option string) : list Step :=
  let isProd := isProduction appConfig in
  ([ SetGlobalPrefix "/api/v1";
     RegisterCookie
       {| cookie_secret := processEnv "JWT_SECRET";
          httpOnly := true;
          secure := isProd;
          sameSite := if isProd then "strict" else "lax" |};
     RegisterHelmet
       {| contentSecurityPolicy := if isProd then None else Some false;
          crossOriginResourcePolicy := "cross-origin";
          referrerPolicy := "no-referrer";
          hsts := if isProd then HstsOn 31536000%N true true else HstsOff;
          global := true |};
     RegisterCors
       {| origin := backendCorsOrigins (security appConfig);
          methods :=
            ["GET"; "HEAD"; "PUT"; "PATCH"; "POST"; "DELETE"; "OPTIONS"];
          credentials := true;
          allowedHeaders :=
            ["Origin"; "X-Requested-With"; "Content-Type"; "Accept";
             "Authorization"; "X-Virtual-Request-Id"];
          exposedHeaders := ["Content-Disposition"] |};
     RegisterCompress;
     RegisterMultipart;
     UseGlobalPipes
       {| whitelist := true;
          forbidNonWhitelisted := false;
          transform := true;
          enableImplicitConversion := true;
          disableErrorMessages := isProd |};
     UseLogger ]
   ++ (if negb isProd
       then [RegisterSwagger "JINAQ API" "1.0.0"; RegisterSwaggerUi "/api"]
       else [])
   ++ [ OnSignal "SIGTERM"; OnSignal "SIGINT";
        Listen
          match processEnv "SERVER_PORT" with
          | Some s => PortString s
          | None => PortNumber 8080%N
          end
          "0.0.0.0" ])%list.

Definition isSwagger (s : Step) : bool :=
  match s with
  | RegisterSwagger _ _ | RegisterSwaggerUi _ => true
  | _ => false
  end.

End Main.

(* ================================================================== *)
(** * The specification's wording, for comparison with the code *)
(* ================================================================== *)

Module Spec.
Import Config Security.

(** "The substring before the first [sep]": the whole string when [sep]
    does not occur. *)
Fixpoint beforeFirst (sep : ascii) (s : string) : string :=
  match s with
  | EmptyString => EmptyString
  | String c s' =>
      if Ascii.eqb c sep then EmptyString else String c (beforeFirst sep s')
  end.

(** "The lowercased media type of the input (the substring before the first
    ';', trimmed)". *)
Definition mediaType (contentType : string) : string :=
  toLowerCase (trim (beforeFirst ";" contentType)).

(** The deny list as the specification enumerates it. *)
Definition denied (m : string) : Prop :=
  m = "text/html" \/ m = "application/xhtml+xml" \/ m = "image/svg+xml"
  \/ m = "text/xml" \/ m = "application/xml".

Definition deniedTypes : list string :=
  ["text/html"; "application/xhtml+xml"; "image/svg+xml"; "text/xml";
   "application/xml"].

(** The content type the specification says is sent to the object store. *)
Definition sentContentType (contentType : string) : string :=
  if includes deniedTypes (mediaType contentType) then "text/plain"
  else contentType.

(** The value of an environment variable, an unset one read as empty. *)
Definition valueOf (config : NestConfigService) (key : string) : string :=
  match config key with
  | Some v => v
  | None => ""
  end.

(** "Split on ',', with every entry trimmed of surrounding whitespace and
    every empty entry removed". *)
Definition trimmedEntries (v : string) : list string :=
  filter (fun e => negb (String.eqb e "")) (map trim (split "," v)).

(** "The host value with any ':port' suffix removed". *)
Definition withoutPort (host : string) : string := beforeFirst ":" host.

(** The rejection condition as the specification states it: the allow list
    is non-empty, the request carries a host header, and the host without
    its port is not an element of the list. *)
Definition rejectsAsStated (l : list string) (req : FastifyRequest) : Prop :=
  l <> [] /\
  exists h, headers_host req = Some h /\ ~ In (withoutPort h) l.

(** The rejection condition of the code: as above, for a host that is
    moreover not empty once the port is removed. *)
Definition rejects (l : list string) (req : FastifyRequest) : Prop :=
  l <> [] /\
  exists h, headers_host req = Some h /\ withoutPort h <> ""
            /\ ~ In (withoutPort h) l.

(** A host header value: a host name, alone or followed by ':' and a
    port. *)
Definition hostValue (name : string) (port : option string) : string :=
  match port with
  | Some p => name ++ ":" ++ p
  | None => name
  end.

(** Whether the code unit [c] occurs in [s]. *)
Fixpoint occurs (c : ascii) (s : string) : bool :=
  match s with
  | EmptyString => false
  | String d s' => Ascii.eqb d c || occurs c s'
  end.

End Spec.

(* ================================================================== *)
(** * Facts about the string primitives *)
(* ================================================================== *)

Module StringFacts.
Import Spec.

Ltac each_char c := destruct c as [[] [] [] [] [] [] [] []].

Lemma isEmpty_true (s : string) : isEmpty s = true <-> s = "".
Proof. destruct s; simpl; split; congruence. Qed.

Lemma truthy_false (s : string) : truthy s = false <-> s = "".
Proof.
  unfold truthy. rewrite negb_false_iff. apply isEmpty_true.
Qed.

Lemma truthy_eqb (s : string) : truthy s = negb (String.eqb s "").
Proof. destruct s; reflexivity. Qed.

Lemma includes_In (l : list string) (x : string) :
  includes l x = true <-> In x l.
Proof.
  unfold includes. rewrite existsb_exists. split.
  - intros [y [Hy Heq]]. apply String.eqb_eq in Heq. now subst.
  - intros H. exists x. split; [assumption | apply String.eqb_refl].
Qed.

Lemma split_not_nil (sep : ascii) (s : string) : split sep s <> [].
Proof.
  destruct s as [|c s]; simpl; [discriminate|].
  destruct (Ascii.eqb c sep); [discriminate|].
  destruct (split sep s); discriminate.
Qed.

Example split_examples :
  split "," "a,,b" = ["a"; ""; "b"] /\ split "," "" = [""]
  /\ split ":" "host:80" = ["host"; "80"] /\ split ":" ":80" = [""; "80"].
Proof. repeat split; reflexivity. Qed.

Example trim_examples :
  trim "  a b  " = "a b" /\ trim "   " = "" /\ trim "a" = "a".
Proof. repeat split; reflexivity. Qed.

(** [s.split(sep)[0]] is the substring before the first [sep]. *)
Lemma first_split (sep : ascii) (s : string) :
  first (split sep s) = Some (beforeFirst sep s).
Proof.
  induction s as [|c s IH]; simpl; [reflexivity|].
  destruct (Ascii.eqb c sep); [reflexivity|].
  destruct (split sep s) as [|h t]; simpl in *; [discriminate|].
  now inversion IH.
Qed.

Lemma lowerChar_semicolon (c : ascii) :
  Ascii.eqb (lowerChar c) ";" = Ascii.eqb c ";".
Proof. each_char c; reflexivity. Qed.

Lemma isWhiteSpace_lowerChar (c : ascii) :
  isWhiteSpace (lowerChar c) = isWhiteSpace c.
Proof. each_char c; reflexivity. Qed.

Lemma isEmpty_toLowerCase (s : string) :
  isEmpty (toLowerCase s) = isEmpty s.
Proof. destruct s; reflexivity. Qed.

Lemma beforeFirst_toLowerCase (s : string) :
  beforeFirst ";" (toLowerCase s) = toLowerCase (beforeFirst ";" s).
Proof.
  induction s as [|c s IH]; simpl; [reflexivity|].
  rewrite lowerChar_semicolon.
  destruct (Ascii.eqb c ";"); simpl; [reflexivity | now rewrite IH].
Qed.

Lemma trimStart_toLowerCase (s : string) :
  trimStart (toLowerCase s) = toLowerCase (trimStart s).
Proof.
  induction s as [|c s IH]; simpl; [reflexivity|].
  rewrite isWhiteSpace_lowerChar.
  destruct (isWhiteSpace c); [assumption | reflexivity].
Qed.

Lemma trimEnd_toLowerCase (s : string) :
  trimEnd (toLowerCase s) = toLowerCase (trimEnd s).
Proof.
  induction s as [|c s IH]; simpl; [reflexivity|].
  rewrite isWhiteSpace_lowerChar, IH, isEmpty_toLowerCase.
  destruct (isWhiteSpace c && isEmpty (trimEnd s)); reflexivity.
Qed.

Lemma trim_toLowerCase (s : string) :
  trim (toLowerCase s) = toLowerCase (trim s).
Proof.
  unfold trim. now rewrite trimStart_toLowerCase, trimEnd_toLowerCase.
Qed.

(** The code lowercases first and cuts afterwards; the specification cuts
    first.  Both give the same media type. *)
Lemma normalized_mediaType (contentType : string) :
  option_map trim (first (split ";" (toLowerCase contentType)))
  = Some (mediaType contentType).
Proof.
  rewrite first_split. simpl. unfold mediaType.
  now rewrite beforeFirst_toLowerCase, trim_toLowerCase.
Qed.

(** ** Trimming and splitting *)

Lemma trimEnd_trimStart (s : string) :
  trimEnd (trimStart s) = trimStart (trimEnd s).
Proof.
  induction s as [|c s IH]; simpl; [reflexivity|].
  destruct (isWhiteSpace c) eqn:Hc; simpl.
  - destruct (trimEnd s) as [|d t] eqn:Ht; simpl.
    + now rewrite IH.
    + rewrite Hc. now rewrite IH.
  - now rewrite Hc.
Qed.

Lemma trim_alt (s : string) : trim s = trimStart (trimEnd s).
Proof. apply trimEnd_trimStart. Qed.

Lemma trimStart_idem (s : string) : trimStart (trimStart s) = trimStart s.
Proof.
  induction s as [|c s IH]; simpl; [reflexivity|].
  destruct (isWhiteSpace c) eqn:Hc; [assumption|].
  simpl. now rewrite Hc.
Qed.

Lemma trimEnd_idem (s : string) : trimEnd (trimEnd s) = trimEnd s.
Proof.
  induction s as [|c s IH]; simpl; [reflexivity|].
  destruct (isWhiteSpace c && isEmpty (trimEnd s)) eqn:Hc; [reflexivity|].
  simpl. now rewrite IH, Hc.
Qed.

Lemma trim_idem (s : string) : trim (trim s) = trim s.
Proof.
  unfold trim at 2. rewrite trim_alt at 1.
  rewrite trimEnd_idem. rewrite <- trimEnd_trimStart.
  now rewrite trimStart_idem.
Qed.

Section SplitTrim.
Variable sep : ascii.
Hypothesis sep_not_space : isWhiteSpace sep = false.

Lemma eqb_sep_space (c : ascii) :
  isWhiteSpace c = true -> Ascii.eqb c sep = false.
Proof.
  intros Hc. destruct (Ascii.eqb c sep) eqn:E; [|reflexivity].
  apply Ascii.eqb_eq in E. subst. congruence.
Qed.

Lemma split_trimStart (s : string) :
  map trimStart (split sep (trimStart s)) = map trimStart (split sep s).
Proof.
  induction s as [|c s IH]; [reflexivity|].
  cbn [trimStart]. destruct (isWhiteSpace c) eqn:Hc; [|reflexivity].
  rewrite IH. cbn [split]. rewrite (eqb_sep_space _ Hc).
  destruct (split sep s) as [|h t] eqn:Hs.
  - now apply split_not_nil in Hs.
  - cbn [map trimStart]. now rewrite Hc.
Qed.

Lemma split_trimEnd (s : string) :
  map trimEnd (split sep (trimEnd s)) = map trimEnd (split sep s).
Proof.
  induction s as [|c s IH]; [reflexivity|].
  cbn [trimEnd split].
  destruct (Ascii.eqb c sep) eqn:Hsep.
  - apply Ascii.eqb_eq in Hsep. subst c. rewrite sep_not_space.
    cbn [andb split]. rewrite Ascii.eqb_refl. cbn [map]. now rewrite IH.
  - destruct (split sep s) as [|h t] eqn:Hs;
      [now apply split_not_nil in Hs|].
    destruct (isWhiteSpace c && isEmpty (trimEnd s)) eqn:Hc.
    + apply andb_true_iff in Hc. destruct Hc as [Hc He].
      apply isEmpty_true in He. rewrite He in IH. cbn in IH.
      inversion IH as [[Hh Ht]].
      cbn [split map trimEnd]. rewrite <- Hh, Hc. cbn.
      destruct t; [reflexivity | discriminate].
    + cbn [split]. rewrite Hsep.
      destruct (split sep (trimEnd s)) as [|h' t'] eqn:Hs';
        [now apply split_not_nil in Hs'|].
      cbn [map] in *. inversion IH as [[Hh Ht]].
      cbn [trimEnd]. now rewrite Hh.
Qed.

(** Trimming the whole value before the split changes nothing once every
    entry is trimmed. *)
Lemma split_trim (s : string) :
  map trim (split sep (trim s)) = map trim (split sep s).
Proof.
  assert (E1 : forall l, map trim l = map trimStart (map trimEnd l)).
  { intros l. rewrite map_map. apply map_ext. intros a. apply trim_alt. }
  assert (E2 : forall l, map trim l = map trimEnd (map trimStart l)).
  { intros l. rewrite map_map. reflexivity. }
  unfold trim at 2. rewrite E1, split_trimEnd, <- E1.
  now rewrite E2, split_trimStart, <- E2.
Qed.

End SplitTrim.

Lemma beforeFirst_no_sep (sep : ascii) (s : string) :
  occurs sep (beforeFirst sep s) = false.
Proof.
  induction s as [|c s IH]; simpl; [reflexivity|].
  destruct (Ascii.eqb c sep) eqn:E; [reflexivity|].
  simpl. now rewrite E.
Qed.

(** What follows the first separator does not count. *)
Lemma beforeFirst_app (sep : ascii) (h rest : string) :
  occurs sep h = false -> beforeFirst sep (h ++ String sep rest) = h.
Proof.
  induction h as [|c h IH]; simpl.
  - intros _. now rewrite Ascii.eqb_refl.
  - intros H. apply orb_false_iff in H. destruct H as [Hc Hh].
    rewrite Hc. now rewrite IH.
Qed.

Lemma beforeFirst_id (sep : ascii) (h : string) :
  occurs sep h = false -> beforeFirst sep h = h.
Proof.
  induction h as [|c h IH]; simpl; [trivial|].
  intros H. apply orb_false_iff in H. destruct H as [Hc Hh].
  rewrite Hc. now rewrite IH.
Qed.

Lemma endsWith_slash (s : string) :
  endsWith (if endsWith s "/" then s else s ++ "/") "/" = true.
Proof.
  destruct (endsWith s "/") eqn:E; [assumption|].
  clear E. unfold endsWith.
  assert (L : forall t, String.length (t ++ "/") = S (String.length t)).
  { induction t; simpl; congruence. }
  rewrite L. cbn [String.length Nat.leb].
  replace (S (String.length s) - 1) with (String.length s) by lia.
  cbn [andb]. apply String.eqb_eq.
  induction s as [|c s IH]; [reflexivity|]. exact IH.
Qed.

End StringFacts.

(* ================================================================== *)
(** * The configuration reader *)
(* ================================================================== *)

Module ConfigFacts.
Import Config Spec StringFacts.

Section GetFacts.
Variable config : NestConfigService.
Context {T : Type}.
Variable cast : string -> T.

Lemma getRaw_unset (key : string) :
  unsetOrBlank (config key) -> getRaw config cast key = None.
Proof.
  unfold unsetOrBlank, getRaw. destruct (config key) as [raw|];
    [|reflexivity].
  intros ->. reflexivity.
Qed.

Lemma getRaw_set (key raw : string) :
  config key = Some raw -> trim raw <> "" ->
  getRaw config cast key = Some (cast (trim raw)).
Proof.
  unfold getRaw. intros -> Hne.
  destruct (truthy (trim raw)) eqn:E; [reflexivity|].
  apply truthy_false in E. contradiction.
Qed.

(** With a default, [get] never returns [undefined]. *)
Lemma get_default_defined (key : string) (d : T) :
  get config cast key (Some d) <> None.
Proof.
  unfold get. destruct (getRaw config cast key); discriminate.
Qed.

Lemma get_default (key : string) (d : T) :
  unsetOrBlank (config key) -> get config cast key (Some d) = Some d.
Proof.
  intros H. unfold get. now rewrite (getRaw_unset _ H).
Qed.

Lemma getOr_default (key : string) (d : T) :
  unsetOrBlank (config key) -> getOr config cast key d = d.
Proof.
  intros H. unfold getOr. now rewrite (get_default _ _ H).
Qed.

End GetFacts.

(** With the empty string as default, a string getter returns the trimmed
    value of the variable. *)
Lemma getOr_empty (config : NestConfigService) (key : string) :
  getOr config str key "" = trim (valueOf config key).
Proof.
  unfold getOr, get, getRaw, valueOf, str.
  destruct (config key) as [raw|]; [|reflexivity].
  destruct (truthy (trim raw)) eqn:E; [reflexivity|].
  apply truthy_false in E. now rewrite E.
Qed.

(** C6, as stated, fails for the CORS origins: the value is trimmed as a
    whole before it is split, so the space that ends the last origin is
    gone. *)
Lemma cors_origins_trimmed_counterexample :
  let config :=
    env [("SECURITY_BACKEND_CORS_ORIGINS",
          "http://a.example, http://b.example ")] in
  backendCorsOrigins (security config)
    = ["http://a.example"; " http://b.example"]
  /\ split "," (valueOf config "SECURITY_BACKEND_CORS_ORIGINS")
    = ["http://a.example"; " http://b.example "]
  /\ backendCorsOrigins (security config)
     <> split "," (valueOf config "SECURITY_BACKEND_CORS_ORIGINS").
Proof.
  cbv zeta. split; [reflexivity|]. split; [reflexivity|].
  vm_compute. discriminate.
Qed.

(** C6, amended: [allowedHosts] is the value of SECURITY_ALLOWED_HOSTS split
    on ',', every entry trimmed and every empty entry removed, the empty list
    for an unset or empty variable; [backendCorsOrigins] is the value of
    SECURITY_BACKEND_CORS_ORIGINS, trimmed as a whole (unset read as empty),
    split on ',' with no trimming of the entries and none removed. *)
Theorem security_lists (config : NestConfigService) :
  allowedHosts (security config)
    = trimmedEntries (valueOf config "SECURITY_ALLOWED_HOSTS")
  /\ (valueOf config "SECURITY_ALLOWED_HOSTS" = ""
      -> allowedHosts (security config) = [])
  /\ backendCorsOrigins (security config)
    = split "," (trim (valueOf config "SECURITY_BACKEND_CORS_ORIGINS")).
Proof.
  assert (H : allowedHosts (security config)
              = trimmedEntries (valueOf config "SECURITY_ALLOWED_HOSTS")).
  { unfold security, trimmedEntries. cbn [allowedHosts].
    rewrite getOr_empty, split_trim by reflexivity.
    apply filter_ext. intros e. apply truthy_eqb. }
  split; [exact H|]. split.
  - intros E. rewrite H, E. reflexivity.
  - unfold security. cbn [backendCorsOrigins]. now rewrite getOr_empty.
Qed.

Lemma security_lists_witness :
  let config := env [("SECURITY_ALLOWED_HOSTS", "")] in
  valueOf config "SECURITY_ALLOWED_HOSTS" = ""
  /\ allowedHosts (security config) = [].
Proof.
  cbv zeta. split; [reflexivity|].
  apply (proj1 (proj2 (security_lists
                         (env [("SECURITY_ALLOWED_HOSTS", "")])))).
  reflexivity.
Defined.

Example allowedHosts_example :
  allowedHosts
    (security (env [("SECURITY_ALLOWED_HOSTS", " a.example , ,b.example,")]))
  = ["a.example"; "b.example"].
Proof. reflexivity. Qed.

(** C7: a getter that declares a default returns it when the variable is
    undefined or trims to the empty string, and [isProduction] holds exactly
    when [nodeEnv] is 'production'.  For the [client] getter, which also
    parses the URL it read, the URL it parses and returns is the default,
    'http://localhost:3000', whatever the parser makes of it. *)
Theorem getters_default (config : NestConfigService) :
  (forall (T : Type) (cast : string -> T) (key : string) (d : T),
      unsetOrBlank (config key) -> get config cast key (Some d) = Some d)
  /\ (forall g : Getter,
      unsetOrBlank (config (envKey g)) -> read config g = declaredDefault g)
  /\ (unsetOrBlank (config "S3_PATH_STYLE")
      -> usePathStyle (s3 config) = IsBoolean true)
  /\ (forall URL_hostname : string -> option string,
      unsetOrBlank (config "CLIENT_URL") ->
      client config URL_hostname
      = match URL_hostname "http://localhost:3000" with
        | Some hostname =>
            Some {| client_url := "http://localhost:3000";
                    cookieDomain := hostname |}
        | None => None
        end)
  /\ (isProduction config = true <-> nodeEnv config = "production").
Proof.
  split; [intros; now apply get_default|].
  split; [|split; [|split]].
  - intros g H. destruct g; cbn [read envKey declaredDefault] in *;
      unfold jwt, s3, nodeEnv; cbn;
      now apply getOr_default.
  - intros H. unfold s3. cbn. now apply getOr_default.
  - intros URL_hostname H. unfold client. cbv zeta.
    now rewrite (getOr_default config str "CLIENT_URL" _ H).
  - unfold isProduction. apply String.eqb_eq.
Qed.

Lemma getters_default_witness :
  let config := env [("JWT_EXPIRATION", "   "); ("JWT_SECRET", "s3cret")] in
  (unsetOrBlank (config "JWT_EXPIRATION")
   /\ expiresIn (jwt config) = "720h")
  /\ (unsetOrBlank (config "S3_BUCKET")
      /\ bucket (s3 config) = "jinaq-media")
  /\ (unsetOrBlank (config "NODE_ENVIRONMENT")
      /\ nodeEnv config = "development")
  /\ (unsetOrBlank (config "CLIENT_URL")
      /\ client config (fun _ => Some "localhost")
         = Some {| client_url := "http://localhost:3000";
                   cookieDomain := "localhost" |})
  /\ secret (jwt config) = "s3cret".
Proof.
  cbv zeta.
  pose proof (getters_default
                (env [("JWT_EXPIRATION", "   "); ("JWT_SECRET", "s3cret")]))
    as [_ [H [_ [Hc _]]]].
  split; [split; [reflexivity | apply (H JwtExpiresIn); reflexivity]|].
  split; [split; [exact I | apply (H S3Bucket); exact I]|].
  split; [split; [exact I | apply (H NodeEnv); exact I]|].
  split; [split; [exact I | apply (Hc (fun _ => Some "localhost")); exact I]|].
  reflexivity.
Defined.

End ConfigFacts.

(* ================================================================== *)
(** * The host allow-list middleware *)
(* ================================================================== *)

Module SecurityFacts.
Import Config Security Spec StringFacts.

Lemma length_positive {A : Type} (l : list A) :
  (0 <? List.length l)%nat = true <-> l <> [].
Proof.
  destruct l; simpl; split; intros H; try congruence; try reflexivity.
  discriminate.
Qed.

(** The test of the middleware, as a proposition. *)
Lemma guard_rejects (l : list string) (req : FastifyRequest) :
  let host :=
    match headers_host req with
    | Some h => first (split ":" h)
    | None => None
    end in
  (0 <? List.length l)%nat && truthyOpt host && negb (includesOpt l host)
    = true
  <-> rejects l req.
Proof.
  cbv zeta. unfold rejects, withoutPort.
  rewrite !andb_true_iff, negb_true_iff, length_positive.
  destruct (headers_host req) as [h|].
  - rewrite first_split. cbn [truthyOpt includesOpt]. split.
    + intros [[Hl Ht] Hi]. split; [assumption|].
      exists h. split; [reflexivity|]. split.
      * intros E. apply truthy_false in E. congruence.
      * intros Hin. apply includes_In in Hin. congruence.
    + intros [Hl [h' [Hh [Hne Hin]]]]. inversion Hh; subst h'. clear Hh.
      split; [split; [assumption|]|].
      * destruct (truthy (beforeFirst ":" h)) eqn:E; [reflexivity|].
        apply truthy_false in E. contradiction.
      * destruct (includes l (beforeFirst ":" h)) eqn:E; [|reflexivity].
        apply includes_In in E. contradiction.
  - cbn. split.
    + intros [[_ F] _]. discriminate.
    + intros [_ [h [F _]]]. discriminate.
Qed.

(** C2, as stated, fails: a host header that is present and empty (or that
    is only a port) is let through, although the empty host is not in the
    allow list. *)
Lemma empty_host_counterexample :
  let config := env [("SECURITY_ALLOWED_HOSTS", "example.com")] in
  let req := {| headers_host := Some "" |} in
  let req' := {| headers_host := Some ":8080" |} in
  allowedHosts (security config) = ["example.com"]
  /\ rejectsAsStated (allowedHosts (security config)) req
  /\ use config req (fun _ => tt) = inr tt
  /\ rejectsAsStated (allowedHosts (security config)) req'
  /\ use config req' (fun _ => tt) = inr tt.
Proof.
  cbv zeta.
  assert (N : ~ In "" ["example.com"]).
  { intros [F|[]]. discriminate. }
  split; [reflexivity|].
  split; [|split; [reflexivity|split; [|reflexivity]]].
  - split; [discriminate|]. exists "". split; [reflexivity | exact N].
  - split; [discriminate|]. exists ":8080". split; [reflexivity | exact N].
Qed.

(** C2, amended: for a request whose host header is absent, or is a host
    name without ':' alone or followed by ':port', [use] throws the
    BadRequestException 'Invalid Host Header' if and only if the allow list
    is non-empty, the request carries a host header, and the host value with
    its ':port' suffix removed is non-empty and is not an element of the
    list; in every other case it calls [next()]. *)
Theorem use_rejects_iff {A : Type} (config : NestConfigService)
    (name : string) (port : option string) (next : unit -> A) :
  occurs ":" name = false ->
  let l := allowedHosts (security config) in
  let req := {| headers_host := Some (hostValue name port) |} in
  (use config req next = inl invalidHost
   <-> l <> [] /\ name <> "" /\ ~ In name l)
  /\ (~ (l <> [] /\ name <> "" /\ ~ In name l)
      -> use config req next = inr (next tt))
  /\ use config {| headers_host := None |} next = inr (next tt).
Proof.
  intros Hn. cbv zeta.
  assert (E : first (split ":" (hostValue name port)) = Some name).
  { rewrite first_split. f_equal. destruct port as [p|]; cbn [hostValue].
    - change (name ++ ":" ++ p) with (name ++ String ":" p).
      now apply beforeFirst_app.
    - now apply beforeFirst_id. }
  assert (G : (0 <? List.length (allowedHosts (security config)))%nat
              && truthy name
              && negb (includes (allowedHosts (security config)) name) = true
              <-> allowedHosts (security config) <> [] /\ name <> ""
                  /\ ~ In name (allowedHosts (security config))).
  { rewrite !andb_true_iff, negb_true_iff, length_positive. split.
    - intros [[Hl Ht] Hi]. split; [assumption|]. split.
      + intros F. apply truthy_false in F. congruence.
      + intros Hin. apply includes_In in Hin. congruence.
    - intros [Hl [Hne Hin]]. split; [split; [assumption|]|].
      + destruct (truthy name) eqn:T; [reflexivity|].
        apply truthy_false in T. contradiction.
      + destruct (includes (allowedHosts (security config)) name) eqn:I;
          [|reflexivity].
        apply includes_In in I. contradiction. }
  unfold use. cbn [headers_host]. rewrite E. cbn [truthyOpt includesOpt].
  destruct ((0 <? List.length (allowedHosts (security config)))%nat
            && truthy name
            && negb (includes (allowedHosts (security config)) name)) eqn:B.
  - split; [|split].
    + split; [intros _; now apply G | reflexivity].
    + intros N. exfalso. apply N. now apply G.
    + now rewrite andb_false_r.
  - split; [|split].
    + split; [discriminate|]. intros R. apply G in R. discriminate.
    + reflexivity.
    + now rewrite andb_false_r.
Qed.

Lemma use_rejects_iff_witness :
  let config := env [("SECURITY_ALLOWED_HOSTS", "example.com")] in
  occurs ":" "evil.example" = false
  /\ use config {| headers_host := Some "evil.example:8080" |} (fun _ => tt)
     = inl invalidHost
  /\ use config {| headers_host := Some "example.com:8080" |} (fun _ => tt)
     = inr tt.
Proof.
  cbv zeta. split; [reflexivity|]. split.
  - apply (proj1 (use_rejects_iff
                    (env [("SECURITY_ALLOWED_HOSTS", "example.com")])
                    "evil.example" (Some "8080") (fun _ => tt) eq_refl)).
    split; [discriminate|]. split; [discriminate|].
    intros [F|[]]. discriminate.
  - apply (proj1 (proj2 (use_rejects_iff
                           (env [("SECURITY_ALLOWED_HOSTS", "example.com")])
                           "example.com" (Some "8080") (fun _ => tt)
                           eq_refl))).
    intros [_ [_ N]]. apply N. left. reflexivity.
Defined.

Example use_rejects_example :
  use (env [("SECURITY_ALLOWED_HOSTS", "example.com, api.example.com")])
      {| headers_host := Some "evil.example:8080" |} (fun _ => tt)
  = inl invalidHost.
Proof. reflexivity. Qed.

Example use_accepts_example :
  use (env [("SECURITY_ALLOWED_HOSTS", "example.com, api.example.com")])
      {| headers_host := Some "api.example.com:8080" |} (fun _ => tt)
  = inr tt.
Proof. reflexivity. Qed.

(** C3: with a non-empty allow list, a request with no host header is not
    rejected; the check is skipped and [next()] is called. *)
Theorem use_absent_host {A : Type} (config : NestConfigService)
    (req : FastifyRequest) (next : unit -> A) :
  allowedHosts (security config) <> [] ->
  headers_host req = None ->
  use config req next = inr (next tt).
Proof.
  intros _ H. unfold use. rewrite H. cbn [truthyOpt].
  now rewrite andb_false_r.
Qed.

Lemma use_absent_host_witness :
  let config := env [("SECURITY_ALLOWED_HOSTS", "example.com")] in
  allowedHosts (security config) <> []
  /\ use config {| headers_host := None |} (fun _ => tt) = inr tt.
Proof.
  cbv zeta. split; [discriminate|].
  apply (use_absent_host (env [("SECURITY_ALLOWED_HOSTS", "example.com")])
           {| headers_host := None |} (fun _ => tt)).
  - discriminate.
  - reflexivity.
Defined.

End SecurityFacts.

(* ================================================================== *)
(** * The object-storage service *)
(* ================================================================== *)

Module S3Facts.
Import Config S3 Spec StringFacts.

Ltac run :=
  unfold bind, tryCatch, send, logger, logFailure, ret, throw; cbn.

Ltac ask_store :=
  repeat match goal with
         | |- context [match ?store ?h ?c with _ => _ end] =>
             destruct (store h c) eqn:?; cbn
         end.

Lemma dangerous_deniedTypes : dangerous = deniedTypes.
Proof. reflexivity. Qed.

Lemma deniedTypes_denied (m : string) :
  includes deniedTypes m = true <-> denied m.
Proof.
  rewrite includes_In. unfold deniedTypes, denied. cbn [In].
  intuition congruence.
Qed.

(** What [sanitizeContentType] returns and logs, by the media type of its
    argument. *)
Lemma sanitizeContentType_run (contentType : string) (w : World) :
  sanitizeContentType contentType w
  = if includes deniedTypes (mediaType contentType)
    then (Fulfilled "text/plain",
          {| issued := issued w;
             logged := (logged w ++
               [{| level := WARN;
                   message := SanitizedDangerousContentType contentType;
                   trace := None |}])%list |})
    else (Fulfilled contentType, w).
Proof.
  unfold sanitizeContentType. rewrite dangerous_deniedTypes.
  pose proof (normalized_mediaType contentType) as N.
  destruct (first (split ";" (toLowerCase contentType))) as [part|];
    [|discriminate].
  cbn in N. inversion N as [E]. cbn zeta. rewrite E.
  destruct (includes deniedTypes (mediaType contentType)); reflexivity.
Qed.

Lemma sanitizeContentType_issues_nothing (contentType : string) (w : World) :
  issued (snd (sanitizeContentType contentType w)) = issued w.
Proof.
  rewrite sanitizeContentType_run.
  destruct (includes deniedTypes (mediaType contentType)); reflexivity.
Qed.

Lemma sanitizeContentType_value (contentType : string) (w : World) :
  fst (sanitizeContentType contentType w) = Fulfilled (sentContentType contentType).
Proof.
  rewrite sanitizeContentType_run. unfold sentContentType.
  destruct (includes deniedTypes (mediaType contentType)); reflexivity.
Qed.

Lemma uploadObject_run (store : list Command -> Command -> option Thrown)
    (cfg : S3Config) (key body contentType : string) (w : World) :
  let cmd :=
    Upload {| Bucket := bucket cfg; Key := key; Body := body;
              ContentType := Some (sentContentType contentType);
              ContentDisposition := Some "inline";
              ACL := Some "public-read" |} in
  issued (snd (uploadObject store cfg key body contentType w))
    = (issued w ++ [cmd])%list
  /\ fst (uploadObject store cfg key body contentType w)
     = match store (issued w) cmd with
       | None => Fulfilled key
       | Some t => Rejected t
       end.
Proof.
  cbv zeta. unfold uploadObject, bind.
  rewrite !sanitizeContentType_run. unfold sentContentType.
  destruct (includes deniedTypes (mediaType contentType)); run; ask_store;
    split; reflexivity.
Qed.

(** C1: the ContentType [uploadObject] sends is 'text/plain' when the
    lowercased media type of the input (the part before the first ';',
    trimmed) is one of the five denied types, and is the input unchanged
    otherwise. *)
Theorem uploadObject_content_type
    (store : list Command -> Command -> option Thrown) (cfg : S3Config)
    (key body contentType : string) (w : World) :
  exists sent : string,
    issued (snd (uploadObject store cfg key body contentType w))
    = (issued w ++
       [Upload {| Bucket := bucket cfg; Key := key; Body := body;
                  ContentType := Some sent;
                  ContentDisposition := Some "inline";
                  ACL := Some "public-read" |}])%list
    /\ fst (sanitizeContentType contentType w) = Fulfilled sent
    /\ (denied (mediaType contentType) -> sent = "text/plain")
    /\ (~ denied (mediaType contentType) -> sent = contentType).
Proof.
  exists (sentContentType contentType).
  split; [apply uploadObject_run|].
  split; [apply sanitizeContentType_value|].
  unfold sentContentType.
  destruct (includes deniedTypes (mediaType contentType)) eqn:E.
  - split; [reflexivity|]. intros N. apply deniedTypes_denied in E.
    contradiction.
  - split; [|reflexivity]. intros D. apply deniedTypes_denied in D. congruence.
Qed.

Example sanitized_html :
  sentContentType " Text/HTML ; charset=utf-8" = "text/plain".
Proof. reflexivity. Qed.

Example sanitized_png : sentContentType "image/PNG" = "image/PNG".
Proof. reflexivity. Qed.

Lemma uploadObject_content_type_witness :
  exists sent : string,
    issued (snd (uploadObject (fun _ _ => None) (s3 (env [])) "images/a.svg"
                   "<svg/>" "image/SVG+xml; charset=utf-8" initial))
    = [Upload {| Bucket := "jinaq-media"; Key := "images/a.svg";
                 Body := "<svg/>"; ContentType := Some sent;
                 ContentDisposition := Some "inline";
                 ACL := Some "public-read" |}]
    /\ sent = "text/plain".
Proof.
  destruct (uploadObject_content_type (fun _ _ => None) (s3 (env []))
              "images/a.svg" "<svg/>" "image/SVG+xml; charset=utf-8" initial)
    as [sent [H [_ [D _]]]].
  exists sent. split; [exact H|].
  apply D. right. right. left. reflexivity.
Defined.

(** C10: [sanitizeContentType] is idempotent: sanitizing its result returns
    that result again (and logs nothing more). *)
Theorem sanitizeContentType_idempotent (contentType : string) (w : World) :
  exists (r : string) (w1 : World),
    sanitizeContentType contentType w = (Fulfilled r, w1)
    /\ sanitizeContentType r w1 = (Fulfilled r, w1).
Proof.
  rewrite sanitizeContentType_run.
  destruct (includes deniedTypes (mediaType contentType)) eqn:E.
  - eexists. eexists. split; [reflexivity|].
    rewrite sanitizeContentType_run. reflexivity.
  - exists contentType, w. split; [reflexivity|].
    rewrite sanitizeContentType_run. now rewrite E.
Qed.

(** C8: [uploadImage] uploads to the configured bucket under the key made of
    the image prefix, '/', and the file name, and returns that key (the
    promise is rejected only when the upload is, with the upload's error);
    [delete] issues a DeleteObject for the given key, unchanged, in the
    configured bucket. *)
Theorem uploadImage_delete_keys
    (store : list Command -> Command -> option Thrown) (cfg : S3Config)
    (filename body contentType key : string) (w : World) :
  let imageKey := imagePrefix cfg ++ "/" ++ filename in
  let upload :=
    Upload {| Bucket := bucket cfg; Key := imageKey; Body := body;
              ContentType := Some (sentContentType contentType);
              ContentDisposition := Some "inline";
              ACL := Some "public-read" |} in
  issued (snd (uploadImage store cfg filename body contentType w))
    = (issued w ++ [upload])%list
  /\ fst (uploadImage store cfg filename body contentType w)
     = match store (issued w) upload with
       | None => Fulfilled imageKey
       | Some t => Rejected t
       end
  /\ issued (snd (delete store cfg key w))
     = (issued w ++ [DeleteObjectCommand (bucket cfg) key])%list.
Proof.
  cbv zeta. unfold uploadImage.
  destruct (uploadObject_run store cfg
              (imagePrefix cfg ++ "/" ++ filename) body contentType w)
    as [H1 H2].
  split; [exact H1|]. split; [exact H2|].
  unfold delete. run. ask_store; reflexivity.
Qed.

Example uploadImage_example :
  uploadImage (fun _ _ => None) (s3 (env [("S3_IMAGE_PREFIX", "img")]))
    "logo.png" "PNG" "image/png" initial
  = (Fulfilled "img/logo.png",
     {| issued :=
          [Upload {| Bucket := "jinaq-media"; Key := "img/logo.png";
                     Body := "PNG"; ContentType := Some "image/png";
                     ContentDisposition := Some "inline";
                     ACL := Some "public-read" |}];
        logged :=
          [{| level := DEBUG; message := Uploaded "jinaq-media" "img/logo.png";
              trace := None |}] |}).
Proof. reflexivity. Qed.

(** ** Bootstrap on module init *)

Section Bootstrap.
Variable store : list Command -> Command -> option Thrown.
Variable cfg : S3Config.

Let head := HeadBucketCommand (bucket cfg).
Let create := CreateBucketCommand (bucket cfg).
Let policy :=
  PutBucketPolicyCommand (bucket cfg)
    (Json.stringify (policyDocument (bucket cfg))).

Lemma ensureBucketPolicy_run (b : string) (w : World) :
  exists w',
    ensureBucketPolicy store b w = (Fulfilled tt, w')
    /\ issued w'
       = (issued w ++
          [PutBucketPolicyCommand b (Json.stringify (policyDocument b))])%list
    /\ forall t,
        store (issued w)
          (PutBucketPolicyCommand b (Json.stringify (policyDocument b)))
        = Some t ->
        exists st,
          logged w'
          = (logged w ++
             [{| level := ERROR; message := FailedToSetBucketPolicy b;
                 trace := st |}])%list.
Proof.
  unfold ensureBucketPolicy. run. ask_store.
  - destruct (instanceofError t) eqn:I; cbn;
      (eexists; split; [reflexivity|]; split; [reflexivity|]);
      intros t' E; eexists; reflexivity.
  - eexists. split; [reflexivity|]. split; [reflexivity|].
    intros t E. discriminate.
Qed.

Lemma ensurePrefixObject_run (prefix : string) (w : World) :
  let key := if endsWith prefix "/" then prefix else prefix ++ "/" in
  exists w',
    ensurePrefixObject store cfg prefix w = (Fulfilled tt, w')
    /\ issued w' = (issued w ++ [Upload (prefixObject cfg key)])%list
    /\ forall t,
        store (issued w) (Upload (prefixObject cfg key)) = Some t ->
        exists st,
          logged w'
          = (logged w ++
             [{| level := ERROR; message := FailedToEnsurePrefix key;
                 trace := st |}])%list.
Proof.
  cbv zeta. unfold ensurePrefixObject.
  generalize (if endsWith prefix "/" then prefix else prefix ++ "/").
  intros key. run. ask_store.
  - destruct (instanceofError t) eqn:I; cbn;
      (eexists; split; [reflexivity|]; split; [reflexivity|]);
      intros t' E; eexists; reflexivity.
  - eexists. split; [reflexivity|]. split; [reflexivity|].
    intros t E. discriminate.
Qed.

(** The bucket step: HeadBucket, and CreateBucket only after a failed
    HeadBucket; it is rejected exactly when both fail. *)
Lemma ensureBucketExists_run (w : World) :
  match store (issued w) head,
        store (issued w ++ [head])%list create with
  | None, _ =>
      exists w', ensureBucketExists store (bucket cfg) w = (Fulfilled tt, w')
                 /\ issued w' = (issued w ++ [head])%list
  | Some _, None =>
      exists w', ensureBucketExists store (bucket cfg) w = (Fulfilled tt, w')
                 /\ issued w' = (issued w ++ [head; create])%list
  | Some _, Some t =>
      exists w', ensureBucketExists store (bucket cfg) w = (Rejected t, w')
                 /\ issued w' = (issued w ++ [head; create])%list
  end.
Proof.
  unfold ensureBucketExists, head, create. run.
  destruct (store (issued w) (HeadBucketCommand (bucket cfg))) eqn:H; cbn.
  - destruct (store (issued w ++ [HeadBucketCommand (bucket cfg)])%list
                (CreateBucketCommand (bucket cfg))) eqn:C; cbn;
      eexists; (split; [reflexivity|]); cbn; now rewrite <- app_assoc.
  - destruct (store (issued w ++ [HeadBucketCommand (bucket cfg)])%list
                (CreateBucketCommand (bucket cfg)));
      eexists; split; reflexivity.
Qed.

(** Once the bucket step is through, the two remaining steps run, whatever
    the object store answers to them. *)
Lemma onModuleInit_after_bucket (w w1 : World) :
  ensureBucketExists store (bucket cfg) w = (Fulfilled tt, w1) ->
  let key :=
    if endsWith (imagePrefix cfg) "/" then imagePrefix cfg
    else imagePrefix cfg ++ "/" in
  exists w2,
    onModuleInit store cfg w = (Fulfilled tt, w2)
    /\ issued w2
       = (issued w1 ++ [policy; Upload (prefixObject cfg key)])%list.
Proof.
  intros E. cbv zeta. unfold onModuleInit, bind. rewrite E.
  destruct (ensureBucketPolicy_run (bucket cfg) w1) as [wp [Ep [Ip _]]].
  rewrite Ep.
  destruct (ensurePrefixObject_run (imagePrefix cfg) wp) as [wu [Eu [Iu _]]].
  cbv zeta in Eu, Iu. rewrite Eu. eexists. split; [reflexivity|].
  rewrite Iu, Ip, <- app_assoc. reflexivity.
Qed.

Lemma onModuleInit_bucket_rejected (w w1 : World) (t : Thrown) :
  ensureBucketExists store (bucket cfg) w = (Rejected t, w1) ->
  onModuleInit store cfg w = (Rejected t, w1).
Proof.
  intros E. unfold onModuleInit, bind. now rewrite E.
Qed.

End Bootstrap.

(** C4: a failure of the bucket-policy call, and likewise of the
    prefix-object upload, is caught and logged and not rethrown; once the
    bucket step is through, [onModuleInit] runs its remaining steps and is
    fulfilled, also when PutBucketPolicy fails. *)
Theorem bootstrap_failures_not_fatal
    (store : list Command -> Command -> option Thrown) (cfg : S3Config) :
  (forall (b : string) (w : World),
      exists w',
        ensureBucketPolicy store b w = (Fulfilled tt, w')
        /\ forall t,
            store (issued w)
              (PutBucketPolicyCommand b (Json.stringify (policyDocument b)))
            = Some t ->
            exists st,
              logged w'
              = (logged w ++
                 [{| level := ERROR; message := FailedToSetBucketPolicy b;
                     trace := st |}])%list)
  /\ (forall (prefix : string) (w : World),
      let key := if endsWith prefix "/" then prefix else prefix ++ "/" in
      exists w',
        ensurePrefixObject store cfg prefix w = (Fulfilled tt, w')
        /\ forall t,
            store (issued w) (Upload (prefixObject cfg key)) = Some t ->
            exists st,
              logged w'
              = (logged w ++
                 [{| level := ERROR; message := FailedToEnsurePrefix key;
                     trace := st |}])%list)
  /\ (forall w w1 : World,
      ensureBucketExists store (bucket cfg) w = (Fulfilled tt, w1) ->
      let key :=
        if endsWith (imagePrefix cfg) "/" then imagePrefix cfg
        else imagePrefix cfg ++ "/" in
      exists w2,
        onModuleInit store cfg w = (Fulfilled tt, w2)
        /\ issued w2
           = (issued w1 ++
              [PutBucketPolicyCommand (bucket cfg)
                 (Json.stringify (policyDocument (bucket cfg)));
               Upload (prefixObject cfg key)])%list).
Proof.
  split; [|split].
  - intros b w.
    destruct (ensureBucketPolicy_run store b w) as [w' [E [_ L]]].
    exists w'. split; assumption.
  - intros prefix w. cbv zeta.
    destruct (ensurePrefixObject_run store cfg prefix w) as [w' [E [_ L]]].
    exists w'. split; assumption.
  - intros w w1 E. now apply onModuleInit_after_bucket.
Qed.

Lemma bootstrap_failures_not_fatal_witness :
  ensureBucketExists failingAfterHead (bucket (s3 (env []))) initial
  = (Fulfilled tt,
     {| issued := [HeadBucketCommand "jinaq-media"];
        logged := [{| level := LOG;
                      message := BucketAlreadyExists "jinaq-media";
                      trace := None |}] |})
  /\ exists w2,
      onModuleInit failingAfterHead (s3 (env [])) initial = (Fulfilled tt, w2)
      /\ issued w2
         = [HeadBucketCommand "jinaq-media";
            PutBucketPolicyCommand "jinaq-media"
              (Json.stringify (policyDocument "jinaq-media"));
            Upload (prefixObject (s3 (env [])) "images/")].
Proof.
  split; [reflexivity|].
  destruct (bootstrap_failures_not_fatal failingAfterHead (s3 (env [])))
    as [_ [_ H]].
  destruct (H initial _ eq_refl) as [w2 [E I]].
  exists w2. split; [exact E | exact I].
Defined.

(** C5, as stated, fails: when HeadBucket and CreateBucket both fail, init is
    rejected after the first step, and neither the policy nor the prefix
    object is attempted. *)
Lemma onModuleInit_aborts_counterexample :
  onModuleInit failing (s3 (env [])) initial
  = (Rejected (ThrownError None),
     {| issued := [HeadBucketCommand "jinaq-media";
                   CreateBucketCommand "jinaq-media"];
        logged := [{| level := LOG;
                      message := BucketNotFoundCreating "jinaq-media";
                      trace := None |}] |}).
Proof. reflexivity. Qed.

(** C5, amended: on module init the service runs, in this order and each at
    most once, (1) the bucket check, HeadBucket followed by CreateBucket only
    when HeadBucket fails; (2) the public-read bucket policy; (3) the upload
    of a zero-byte object whose key is the image prefix ending in '/' (a '/'
    is appended unless the prefix already ends with one).  Steps (2) and (3)
    run whenever step (1) is through; when CreateBucket fails too, init is
    rejected with that error after step (1). *)
Theorem onModuleInit_steps
    (store : list Command -> Command -> option Thrown) (cfg : S3Config)
    (w : World) :
  let key :=
    if endsWith (imagePrefix cfg) "/" then imagePrefix cfg
    else imagePrefix cfg ++ "/" in
  let head := HeadBucketCommand (bucket cfg) in
  let create := CreateBucketCommand (bucket cfg) in
  let policy :=
    PutBucketPolicyCommand (bucket cfg)
      (Json.stringify (policyDocument (bucket cfg))) in
  let upload :=
    Upload {| Bucket := bucket cfg; Key := key; Body := "";
              ContentType := None; ContentDisposition := None;
              ACL := None |} in
  endsWith key "/" = true
  /\ match store (issued w) head,
           store (issued w ++ [head])%list create with
     | None, _ =>
         fst (onModuleInit store cfg w) = Fulfilled tt
         /\ issued (snd (onModuleInit store cfg w))
            = (issued w ++ [head; policy; upload])%list
     | Some _, None =>
         fst (onModuleInit store cfg w) = Fulfilled tt
         /\ issued (snd (onModuleInit store cfg w))
            = (issued w ++ [head; create; policy; upload])%list
     | Some _, Some t =>
         fst (onModuleInit store cfg w) = Rejected t
         /\ issued (snd (onModuleInit store cfg w))
            = (issued w ++ [head; create])%list
     end.
Proof.
  cbv zeta. split; [apply endsWith_slash|].
  pose proof (ensureBucketExists_run store cfg w) as B.
  destruct (store (issued w) (HeadBucketCommand (bucket cfg))) as [t0|].
  - destruct (store (issued w ++ [HeadBucketCommand (bucket cfg)])%list
                (CreateBucketCommand (bucket cfg))) as [t|].
    + destruct B as [w1 [E I]].
      rewrite (onModuleInit_bucket_rejected store cfg w w1 t E).
      split; [reflexivity | exact I].
    + destruct B as [w1 [E I]].
      destruct (onModuleInit_after_bucket store cfg w w1 E) as [w2 [E2 I2]].
      rewrite E2. split; [reflexivity|]. cbn [snd].
      rewrite I2, I, <- app_assoc. reflexivity.
  - destruct B as [w1 [E I]].
    destruct (onModuleInit_after_bucket store cfg w w1 E) as [w2 [E2 I2]].
    rewrite E2. split; [reflexivity|]. cbn [snd].
    rewrite I2, I, <- app_assoc. reflexivity.
Qed.

Example onModuleInit_example :
  issued (snd (onModuleInit (fun _ _ => None)
                 (s3 (env [("S3_BUCKET", " media "); ("S3_IMAGE_PREFIX", "img/")]))
                 initial))
  = [HeadBucketCommand "media";
     PutBucketPolicyCommand "media" (Json.stringify (policyDocument "media"));
     Upload {| Bucket := "media"; Key := "img/"; Body := "";
               ContentType := None; ContentDisposition := None;
               ACL := None |}].
Proof. reflexivity. Qed.

End S3Facts.

(* ================================================================== *)
(** * The menu service and its query hook *)
(* ================================================================== *)

Module MenuFacts.
Import Menu.

Section Facts.
Variable Menu : Type.
Variable Response : Type.
Variable http : Request -> Response.
Variable json : Response -> Menu.

(** [getMenu(r)] is a GET of '/api/v1/menu/' + r, its body read as JSON. *)
Lemma getMenu_request (r : string) :
  getMenu Menu Response http json r
  = json (http {| method := GET; url := "/api/v1/menu/" ++ r |}).
Proof. reflexivity. Qed.

Lemma byRestaurant_key (r : string) :
  MENU_QUERY_KEYS_byRestaurant r = ["menu"; r].
Proof. reflexivity. Qed.

(** Distinct identifiers have distinct keys, equal identifiers the same. *)
Lemma byRestaurant_injective (r1 r2 : string) :
  MENU_QUERY_KEYS_byRestaurant r1 = MENU_QUERY_KEYS_byRestaurant r2
  <-> r1 = r2.
Proof.
  rewrite !byRestaurant_key. split; intros H.
  - now inversion H.
  - now subst.
Qed.

Lemma keyEqb_refl (k : QueryKey) : keyEqb k k = true.
Proof.
  induction k as [|a k IH]; simpl; [reflexivity|].
  now rewrite String.eqb_refl.
Qed.

Lemma keyEqb_eq (k1 k2 : QueryKey) : keyEqb k1 k2 = true <-> k1 = k2.
Proof.
  revert k2. induction k1 as [|a k1 IH]; intros [|b k2]; simpl;
    split; intros H; try congruence; try discriminate.
  - apply andb_true_iff in H. destruct H as [Hab Hk].
    apply String.eqb_eq in Hab. apply IH in Hk. now subst.
  - inversion H; subst. now rewrite String.eqb_refl, keyEqb_refl.
Qed.

(** Called with a plain identifier, the hook files every fetch of [r] under
    ['menu', r]. *)
Lemma useGetMenu_plain (refs now : Refs) (r : string) (cache : QueryCache Menu) :
  let q := useGetMenu Menu Response http json refs (Plain r) in
  queryKey Menu q = ["menu"; r]
  /\ cached Menu (fetch Menu q now cache) ["menu"; r]
     = Some (getMenu Menu Response http json r).
Proof.
  cbv zeta. split; [reflexivity|].
  unfold fetch. cbn [cached useGetMenu queryKey queryFn unref].
  now rewrite keyEqb_refl.
Qed.

(** Called with a ref, the key is that of the identifier the ref holds when
    the hook is set up, and a fetch asks for the identifier it holds when the
    fetch runs. *)
Lemma useGetMenu_ref (refs now : Refs) (r : Ref) :
  let q := useGetMenu Menu Response http json refs (IsRef r) in
  queryKey Menu q = ["menu"; refs r]
  /\ queryFn Menu q now = getMenu Menu Response http json (now r).
Proof. split; reflexivity. Qed.

End Facts.

(** C9: the code at the failing input.  The hook is set up with a ref that
    holds '1'; the ref is then set to '2' and the query fetched again.  The
    request goes to '/api/v1/menu/2', and its result is filed under
    ['menu', '1']: the menu of restaurant 2 sits in the cache entry of
    restaurant 1, and under ['menu', '2'] there is nothing.  (The service
    here answers a request with its URL, to make the request visible.) *)
Theorem useGetMenu_stale_key :
  let refs0 : Refs := fun _ => "1" in
  let q := useGetMenu string Request (fun req => req) url refs0 (IsRef 0) in
  let refs1 := setRef refs0 0 "2" in
  queryKey string q = ["menu"; "1"]
  /\ queryFn string q refs1 = "/api/v1/menu/2"
  /\ cached string (fetch string q refs1 []) ["menu"; "1"]
     = Some "/api/v1/menu/2"
  /\ cached string (fetch string q refs1 []) ["menu"; "2"] = None.
Proof.
  cbv zeta. repeat split; vm_compute; reflexivity.
Qed.

End MenuFacts.

(* ================================================================== *)
(** * Further facts: strings *)
(* ================================================================== *)

Module StringMore.
Import Spec StringFacts.

Lemma occurs_trimStart (c : ascii) (s : string) :
  occurs c s = false -> occurs c (trimStart s) = false.
Proof.
  induction s as [|d s IH]; simpl; [trivial|].
  intros H. apply orb_false_iff in H. destruct H as [Hd Hs].
  destruct (isWhiteSpace d); [now apply IH|].
  simpl. now rewrite Hd, Hs.
Qed.

Lemma occurs_trimEnd (c : ascii) (s : string) :
  occurs c s = false -> occurs c (trimEnd s) = false.
Proof.
  induction s as [|d s IH]; simpl; [trivial|].
  intros H. apply orb_false_iff in H. destruct H as [Hd Hs].
  destruct (isWhiteSpace d && isEmpty (trimEnd s)); [reflexivity|].
  simpl. rewrite Hd. now apply IH.
Qed.

Lemma occurs_trim (c : ascii) (s : string) :
  occurs c s = false -> occurs c (trim s) = false.
Proof.
  intros H. unfold trim. now apply occurs_trimEnd, occurs_trimStart.
Qed.

(** No entry of [s.split(sep)] contains the separator. *)
Lemma split_no_sep (sep : ascii) (s e : string) :
  In e (split sep s) -> occurs sep e = false.
Proof.
  revert e. induction s as [|c s IH]; simpl; intros e H.
  - destruct H as [<-|[]]. reflexivity.
  - destruct (Ascii.eqb c sep) eqn:E.
    + destruct H as [<-|H]; [reflexivity | now apply IH].
    + destruct (split sep s) as [|h t].
      * destruct H as [<-|[]]. simpl. now rewrite E.
      * destruct H as [<-|H].
        -- simpl. rewrite E. apply IH. now left.
        -- apply IH. now right.
Qed.

(** Joining the entries of [s.split(sep)] with the separator gives [s]
    back. *)
Lemma concat_split (sep : ascii) (s : string) :
  String.concat (String sep EmptyString) (split sep s) = s.
Proof.
  induction s as [|c s IH]; [reflexivity|].
  cbn [split]. destruct (Ascii.eqb c sep) eqn:E.
  - apply Ascii.eqb_eq in E. subst c.
    destruct (split sep s) as [|h t] eqn:Hs;
      [now apply split_not_nil in Hs|].
    cbn [String.concat]. simpl. now rewrite <- IH.
  - destruct (split sep s) as [|h t] eqn:Hs;
      [now apply split_not_nil in Hs|].
    destruct t as [|h' t]; cbn [String.concat] in *; simpl; now rewrite <- IH.
Qed.

Lemma occurs_true_neq (c : ascii) (a b : string) :
  occurs c a = true -> occurs c b = false -> a <> b.
Proof. intros Ha Hb E. subst. congruence. Qed.

Lemma toLowerCase_nonempty (s : string) :
  s <> "" -> toLowerCase s <> "".
Proof. destruct s; simpl; [congruence | discriminate]. Qed.

Lemma lowerChar_idem (c : ascii) : lowerChar (lowerChar c) = lowerChar c.
Proof. each_char c; reflexivity. Qed.

Lemma toLowerCase_idem (s : string) :
  toLowerCase (toLowerCase s) = toLowerCase s.
Proof.
  induction s as [|c s IH]; simpl; [reflexivity|].
  now rewrite lowerChar_idem, IH.
Qed.

(** The media type is read off the lowercased input. *)
Lemma mediaType_lower (c : string) :
  mediaType c = trim (beforeFirst ";" (toLowerCase c)).
Proof.
  unfold mediaType. now rewrite beforeFirst_toLowerCase, trim_toLowerCase.
Qed.

Lemma String_append_assoc (a b c : string) :
  (a ++ b) ++ c = a ++ (b ++ c).
Proof. induction a as [|x a IH]; simpl; [reflexivity | now rewrite IH]. Qed.

End StringMore.

(* ================================================================== *)
(** * Further facts: the configuration reader *)
(* ================================================================== *)

Module ConfigMore.
Import Config Spec StringFacts StringMore ConfigFacts.

(** A string getter with a default returns the default, or the trimmed,
    non-empty value of its variable. *)
Lemma getOr_cases (config : NestConfigService) (key d : string) :
  (unsetOrBlank (config key) /\ getOr config str key d = d)
  \/ (exists raw, config key = Some raw /\ trim raw <> ""
                  /\ getOr config str key d = trim raw).
Proof.
  assert (H : config key = None \/ exists raw, config key = Some raw).
  { destruct (config key) as [raw|]; [right; now exists raw | now left]. }
  destruct H as [E|[raw E]].
  - left. assert (U : unsetOrBlank (config key)) by now rewrite E.
    split; [exact U | now apply getOr_default].
  - destruct (string_dec (trim raw) "") as [B|B].
    + left. assert (U : unsetOrBlank (config key)) by now rewrite E.
      split; [exact U | now apply getOr_default].
    + right. exists raw. split; [exact E|]. split; [exact B|].
      unfold getOr, get. now rewrite (getRaw_set config str key raw E B).
Qed.

Lemma read_getOr (config : NestConfigService) (g : Getter) :
  read config g = getOr config str (envKey g) (declaredDefault g).
Proof. destruct g; reflexivity. Qed.

(** X1: [getBoolean] returns the default when the variable is undefined or
    trims to the empty string. *)
Theorem getBoolean_default (config : NestConfigService) (key : string)
    (d : bool) :
  unsetOrBlank (config key) -> getBoolean config key d = d.
Proof.
  intros U. unfold getBoolean. now rewrite (getRaw_unset config IsString key U).
Qed.

Lemma getBoolean_default_witness :
  unsetOrBlank (env [("FLAG", "   ")] "FLAG")
  /\ getBoolean (env [("FLAG", "   ")]) "FLAG" true = true.
Proof.
  split; [reflexivity|].
  apply (getBoolean_default (env [("FLAG", "   ")]) "FLAG" true).
  reflexivity.
Defined.

(** X2: once the variable holds a non-blank string, [getBoolean] ignores the
    default: the result is whether the value, trimmed and lowercased, is one
    of '1', 'true', 'yes', 'y', 'on'; any other value means false. *)
Theorem getBoolean_set (config : NestConfigService) (key raw : string)
    (d : bool) :
  config key = Some raw -> trim raw <> "" ->
  getBoolean config key d
  = includes ["1"; "true"; "yes"; "y"; "on"] (toLowerCase (trim raw)).
Proof.
  intros E B. unfold getBoolean.
  rewrite (getRaw_set config IsString key raw E B). cbv zeta.
  rewrite trim_idem.
  destruct (truthy (toLowerCase (trim raw))) eqn:T; [reflexivity|].
  apply truthy_false in T. now apply toLowerCase_nonempty in B.
Qed.

Lemma getBoolean_set_witness :
  (env [("FLAG", " Yes "); ("OTHER", "enabled")] "FLAG" = Some " Yes "
   /\ trim " Yes " <> ""
   /\ getBoolean (env [("FLAG", " Yes "); ("OTHER", "enabled")]) "FLAG" false
      = true)
  /\ getBoolean (env [("FLAG", " Yes "); ("OTHER", "enabled")]) "OTHER" true
     = false.
Proof.
  split; [|reflexivity].
  split; [reflexivity|]. split; [discriminate|].
  rewrite (getBoolean_set (env [("FLAG", " Yes "); ("OTHER", "enabled")])
             "FLAG" " Yes " false eq_refl); [reflexivity | discriminate].
Defined.

(** X3: each of the ten getters that return the string they read ([jwt],
    the string fields of [s3], [nodeEnv]) returns a string that is not empty
    and has no surrounding whitespace, whatever the environment. *)
Theorem getters_nonempty_trimmed (config : NestConfigService) (g : Getter) :
  read config g <> "" /\ trim (read config g) = read config g.
Proof.
  rewrite read_getOr.
  destruct (getOr_cases config (envKey g) (declaredDefault g))
    as [[_ E]|[raw [_ [B E]]]]; rewrite E.
  - destruct g; split; (discriminate || reflexivity).
  - split; [exact B | apply trim_idem].
Qed.

(** X4: [database.url], which has no default, is undefined when
    DATABASE_URL is unset; for a value that trims to empty it is that value
    itself, untrimmed; otherwise it is the trimmed value. *)
Theorem database_url_cases (config : NestConfigService) :
  database_url (database config)
  = match config "DATABASE_URL" with
    | None => None
    | Some raw => Some (if isEmpty (trim raw) then raw else trim raw)
    end.
Proof.
  unfold database, get, getRaw, truthy, str. cbn [database_url].
  destruct (config "DATABASE_URL") as [raw|]; [|reflexivity].
  cbn [option_map]. destruct (isEmpty (trim raw)); reflexivity.
Qed.

(** X5: every entry of [security.allowedHosts] is non-empty, has no
    surrounding whitespace and contains no ','. *)
Theorem allowedHosts_entries (config : NestConfigService) :
  Forall (fun e => e <> "" /\ trim e = e /\ occurs "," e = false)
         (allowedHosts (security config)).
Proof.
  apply Forall_forall. intros e H.
  unfold security in H. cbn [allowedHosts] in H.
  apply filter_In in H. destruct H as [H T].
  apply in_map_iff in H. destruct H as [x [<- Hx]].
  split; [|split].
  - intros E. rewrite E in T. discriminate.
  - apply trim_idem.
  - apply occurs_trim. exact (split_no_sep _ _ _ Hx).
Qed.

(** X6: [security.backendCorsOrigins] is never the empty list; its entries
    contain no ',' and, joined with ',', give back the trimmed value of the
    variable; for an unset or blank variable it is the list that holds the
    empty string. *)
Theorem backendCorsOrigins_shape (config : NestConfigService) :
  let origins := backendCorsOrigins (security config) in
  origins <> []
  /\ Forall (fun e => occurs "," e = false) origins
  /\ String.concat "," origins
     = trim (valueOf config "SECURITY_BACKEND_CORS_ORIGINS")
  /\ (unsetOrBlank (config "SECURITY_BACKEND_CORS_ORIGINS")
      -> origins = [""]).
Proof.
  cbv zeta. unfold security. cbn [backendCorsOrigins].
  split; [apply split_not_nil|]. split; [|split].
  - apply Forall_forall. intros e H. exact (split_no_sep _ _ _ H).
  - rewrite getOr_empty. apply concat_split.
  - intros U. now rewrite (getOr_default config str _ "" U).
Qed.

Lemma backendCorsOrigins_shape_witness :
  unsetOrBlank (env [] "SECURITY_BACKEND_CORS_ORIGINS")
  /\ backendCorsOrigins (security (env [])) = [""].
Proof.
  split; [exact I|].
  apply (proj2 (proj2 (proj2 (backendCorsOrigins_shape (env []))))).
  exact I.
Defined.

(** X7: [isProduction] holds exactly when NODE_ENVIRONMENT is set and its
    value, trimmed, is 'production' in lower case; an unset variable, or
    another spelling, is not production. *)
Theorem isProduction_env (config : NestConfigService) :
  isProduction config = true
  <-> exists raw, config "NODE_ENVIRONMENT" = Some raw
                  /\ trim raw = "production".
Proof.
  unfold isProduction, nodeEnv. rewrite String.eqb_eq.
  destruct (getOr_cases config "NODE_ENVIRONMENT" "development")
    as [[U E]|[raw [C [B E]]]]; rewrite E.
  - split; [discriminate|]. intros [raw [C T]]. exfalso.
    unfold unsetOrBlank in U. rewrite C in U. rewrite U in T. discriminate.
  - split.
    + intros T. now exists raw.
    + intros [raw' [C' T]]. congruence.
Qed.

Example isProduction_examples :
  isProduction (env [("NODE_ENVIRONMENT", " production ")]) = true
  /\ isProduction (env [("NODE_ENVIRONMENT", "Production")]) = false
  /\ isProduction (env []) = false.
Proof. repeat split; reflexivity. Qed.

End ConfigMore.

(* ================================================================== *)
(** * Further facts: the host allow-list middleware *)
(* ================================================================== *)

Module SecurityMore.
Import Config Security Spec StringFacts StringMore ConfigFacts SecurityFacts.

Lemma allowedHosts_unset (config : NestConfigService) :
  unsetOrBlank (config "SECURITY_ALLOWED_HOSTS") ->
  allowedHosts (security config) = [].
Proof.
  intros U. unfold security. cbn [allowedHosts].
  now rewrite (getOr_default config str _ "" U).
Qed.

(** X8: with an empty allow list, which is what an unset or blank
    SECURITY_ALLOWED_HOSTS gives, the middleware lets every request through,
    whatever its host header. *)
Theorem use_empty_allow_list {A : Type} (config : NestConfigService)
    (next : unit -> A) :
  (unsetOrBlank (config "SECURITY_ALLOWED_HOSTS")
   -> allowedHosts (security config) = [])
  /\ (allowedHosts (security config) = []
      -> forall req, use config req next = inr (next tt)).
Proof.
  split; [apply allowedHosts_unset|].
  intros E req. unfold use. now rewrite E.
Qed.

Lemma use_empty_allow_list_witness :
  allowedHosts (security (env [("SECURITY_ALLOWED_HOSTS", " , ,")])) = []
  /\ use (env [("SECURITY_ALLOWED_HOSTS", " , ,")])
         {| headers_host := Some "anything.example:1" |} (fun _ => tt)
     = inr tt.
Proof.
  split; [reflexivity|].
  apply (proj2 (use_empty_allow_list
                  (env [("SECURITY_ALLOWED_HOSTS", " , ,")]) (fun _ => tt))).
  reflexivity.
Defined.

(** X9: the port does not count: for a host name without ':', a request
    for host:port is treated exactly as a request for host, whatever the
    port. *)
Theorem use_ignores_port {A : Type} (config : NestConfigService)
    (h port : string) (next : unit -> A) :
  occurs ":" h = false ->
  use config {| headers_host := Some (h ++ ":" ++ port) |} next
  = use config {| headers_host := Some h |} next.
Proof.
  intros H. unfold use. cbn [headers_host].
  rewrite !first_split.
  change (h ++ ":" ++ port) with (h ++ String ":" port).
  now rewrite (beforeFirst_app ":" h port H), (beforeFirst_id ":" h H).
Qed.

Lemma use_ignores_port_witness :
  occurs ":" "api.example.com" = false
  /\ use (env [("SECURITY_ALLOWED_HOSTS", "api.example.com")])
         {| headers_host := Some ("api.example.com" ++ ":" ++ "8443") |}
         (fun _ => tt)
     = use (env [("SECURITY_ALLOWED_HOSTS", "api.example.com")])
           {| headers_host := Some "api.example.com" |} (fun _ => tt).
Proof.
  split; [reflexivity|].
  apply (use_ignores_port (env [("SECURITY_ALLOWED_HOSTS", "api.example.com")])
           "api.example.com" "8443" (fun _ => tt)).
  reflexivity.
Defined.

(** X10: an allow-list entry that contains ':' matches no request, because
    the host is cut at its first ':' before it is looked up.  So when every
    entry of a non-empty allow list contains ':', every request whose host
    is not empty is rejected, also a request for the very host:port that is
    listed. *)
Theorem use_entries_with_port_reject_all {A : Type}
    (config : NestConfigService) (h : string) (next : unit -> A) :
  allowedHosts (security config) <> [] ->
  (forall e, In e (allowedHosts (security config)) -> occurs ":" e = true) ->
  beforeFirst ":" h <> "" ->
  use config {| headers_host := Some h |} next = inl invalidHost.
Proof.
  intros Hne Hall Hh.
  assert (R : rejects (allowedHosts (security config))
                {| headers_host := Some h |}).
  { split; [exact Hne|]. exists h. split; [reflexivity|].
    split; [exact Hh|]. intros Hin. apply Hall in Hin.
    unfold withoutPort in Hin. rewrite beforeFirst_no_sep in Hin.
    discriminate. }
  apply guard_rejects in R. cbv zeta in R. unfold use. now rewrite R.
Qed.

Lemma use_entries_with_port_reject_all_witness :
  allowedHosts (security (env [("SECURITY_ALLOWED_HOSTS", "localhost:3000")]))
  = ["localhost:3000"]
  /\ use (env [("SECURITY_ALLOWED_HOSTS", "localhost:3000")])
         {| headers_host := Some "localhost:3000" |} (fun _ => tt)
     = inl invalidHost.
Proof.
  split; [reflexivity|].
  apply (use_entries_with_port_reject_all
           (env [("SECURITY_ALLOWED_HOSTS", "localhost:3000")])
           "localhost:3000" (fun _ => tt)).
  - discriminate.
  - intros e [<-|[]]. reflexivity.
  - discriminate.
Defined.

End SecurityMore.

(* ================================================================== *)
(** * Further facts: the object-storage service *)
(* ================================================================== *)

Module S3More.
Import Config S3 Spec StringFacts StringMore ConfigFacts S3Facts.

(** X11: the client is always built with [forcePathStyle] true: the default
    of S3_PATH_STYLE is [true], and a value that is set reaches [Boolean] as
    a non-empty string, 'false' and '0' included. *)
Theorem forcePathStyle_always (config : NestConfigService) :
  forcePathStyle (clientConfig (s3 config)) = true.
Proof.
  unfold clientConfig, s3. cbn [forcePathStyle usePathStyle].
  unfold getOr, get.
  assert (H : unsetOrBlank (config "S3_PATH_STYLE")
              \/ exists raw, config "S3_PATH_STYLE" = Some raw
                             /\ trim raw <> "").
  { unfold unsetOrBlank.
    destruct (config "S3_PATH_STYLE") as [raw|]; [|now left].
    destruct (string_dec (trim raw) "") as [B|B]; [now left|].
    right. now exists raw. }
  destruct H as [U|[raw [E B]]].
  - now rewrite (getRaw_unset config IsString _ U).
  - rewrite (getRaw_set config IsString _ raw E B). cbn [Boolean].
    destruct (truthy (trim raw)) eqn:T; [reflexivity|].
    apply truthy_false in T. contradiction.
Qed.

Example forcePathStyle_false_string :
  usePathStyle (s3 (env [("S3_PATH_STYLE", "false")])) = IsString "false"
  /\ forcePathStyle (clientConfig (s3 (env [("S3_PATH_STYLE", "false")])))
     = true.
Proof. split; reflexivity. Qed.

(** X12: what [sanitizeContentType] returns is never a denied type: the
    media type of its result is none of the five. *)
Theorem sanitizeContentType_never_denied (contentType : string) (w : World) :
  exists (r : string) (w' : World),
    sanitizeContentType contentType w = (Fulfilled r, w')
    /\ ~ denied (mediaType r).
Proof.
  rewrite sanitizeContentType_run.
  destruct (includes deniedTypes (mediaType contentType)) eqn:E.
  - eexists. eexists. split; [reflexivity|].
    intros D. apply deniedTypes_denied in D. vm_compute in D. discriminate.
  - exists contentType, w. split; [reflexivity|].
    intros D. apply deniedTypes_denied in D. congruence.
Qed.

(** X13: a denied type is not let through for being written in another
    letter case or for carrying parameters: if [c] has a denied media type
    and no ';', every input that equals [c], followed by ';' and anything,
    up to letter case, is rewritten to 'text/plain'. *)
Theorem sanitizeContentType_case_and_parameters
    (c params input : string) (w : World) :
  occurs ";" c = false ->
  denied (mediaType c) ->
  toLowerCase input = toLowerCase (c ++ ";" ++ params) ->
  fst (sanitizeContentType input w) = Fulfilled "text/plain".
Proof.
  intros Hc D E.
  assert (M : mediaType input = mediaType c).
  { rewrite (mediaType_lower input), E, <- mediaType_lower.
    unfold mediaType.
    change (c ++ ";" ++ params) with (c ++ String ";" params).
    now rewrite (beforeFirst_app ";" c params Hc), (beforeFirst_id ";" c Hc). }
  rewrite sanitizeContentType_value. unfold sentContentType. rewrite M.
  apply deniedTypes_denied in D. now rewrite D.
Qed.

Lemma sanitizeContentType_case_and_parameters_witness :
  occurs ";" " text/html" = false
  /\ denied (mediaType " text/html")
  /\ fst (sanitizeContentType " TEXT/Html; Charset=UTF-8" initial)
     = Fulfilled "text/plain".
Proof.
  split; [reflexivity|]. split; [left; reflexivity|].
  apply (sanitizeContentType_case_and_parameters
           " text/html" " charset=utf-8" " TEXT/Html; Charset=UTF-8" initial).
  - reflexivity.
  - left. reflexivity.
  - reflexivity.
Defined.

(** X14: [uploadObject] logs the upload only when it succeeded: after the
    call the log holds one more WARN line if the content type was rewritten,
    then one DEBUG line if the upload was fulfilled and nothing if it was
    rejected. *)
Theorem uploadObject_logging
    (store : list Command -> Command -> option Thrown) (cfg : S3Config)
    (key body contentType : string) (w : World) :
  let cmd :=
    Upload {| Bucket := bucket cfg; Key := key; Body := body;
              ContentType := Some (sentContentType contentType);
              ContentDisposition := Some "inline";
              ACL := Some "public-read" |} in
  logged (snd (uploadObject store cfg key body contentType w))
  = (logged w
     ++ (if includes deniedTypes (mediaType contentType)
         then [{| level := WARN;
                  message := SanitizedDangerousContentType contentType;
                  trace := None |}]
         else [])
     ++ match store (issued w) cmd with
        | None => [{| level := DEBUG; message := Uploaded (bucket cfg) key;
                      trace := None |}]
        | Some _ => []
        end)%list.
Proof.
  cbv zeta. unfold uploadObject, bind.
  rewrite !sanitizeContentType_run. unfold sentContentType.
  destruct (includes deniedTypes (mediaType contentType)); run; ask_store;
    rewrite ?app_nil_r, <- ?app_assoc; reflexivity.
Qed.

(** X15: the key of an uploaded image starts with the key of the prefix
    object that init ensures: it is that key followed by the file name when
    the configured prefix does not end with '/', and that key, a second '/',
    and the file name when it does. *)
Theorem uploadImage_key_under_prefix
    (store : list Command -> Command -> option Thrown) (cfg : S3Config)
    (filename body contentType : string) (w : World) :
  exists prefixKey : string,
    issued (snd (ensurePrefixObject store cfg (imagePrefix cfg) w))
    = (issued w ++ [Upload (prefixObject cfg prefixKey)])%list
    /\ issued (snd (uploadImage store cfg filename body contentType w))
       = (issued w ++
          [Upload {| Bucket := bucket cfg;
                     Key := prefixKey
                            ++ (if endsWith (imagePrefix cfg) "/"
                                then "/" else "")
                            ++ filename;
                     Body := body;
                     ContentType := Some (sentContentType contentType);
                     ContentDisposition := Some "inline";
                     ACL := Some "public-read" |}])%list.
Proof.
  destruct (ensurePrefixObject_run store cfg (imagePrefix cfg) w)
    as [w' [E [I _]]].
  cbv zeta in E, I.
  exists (if endsWith (imagePrefix cfg) "/" then imagePrefix cfg
          else imagePrefix cfg ++ "/").
  split; [now rewrite E|].
  unfold uploadImage.
  destruct (uploadObject_run store cfg (imagePrefix cfg ++ "/" ++ filename)
              body contentType w) as [U _].
  rewrite U. do 3 f_equal.
  destruct (endsWith (imagePrefix cfg) "/"); [reflexivity|].
  now rewrite String_append_assoc.
Qed.

Example uploadImage_double_slash :
  fst (uploadImage (fun _ _ => None) (s3 (env [("S3_IMAGE_PREFIX", "img/")]))
         "a.png" "" "image/png" initial)
  = Fulfilled "img//a.png".
Proof. reflexivity. Qed.

(** X16: the service addresses no bucket but the configured one: every
    request that [onModuleInit], [uploadImage] and [delete] issue is for
    [cfg.bucket], whatever the object store answers. *)
Theorem requests_in_configured_bucket
    (store : list Command -> Command -> option Thrown) (cfg : S3Config)
    (filename body contentType key : string) (w : World) :
  let only_bucket (m : M unit) :=
    exists l, issued (snd (m w)) = (issued w ++ l)%list
              /\ Forall (fun c => bucketOf c = bucket cfg) l in
  only_bucket (onModuleInit store cfg)
  /\ only_bucket (uploadImage store cfg filename body contentType ;; ret tt)
  /\ only_bucket (delete store cfg key).
Proof.
  cbv zeta. split; [|split].
  - pose proof (ensureBucketExists_run store cfg w) as B.
    destruct (store (issued w) (HeadBucketCommand (bucket cfg))) as [t0|].
    + destruct (store (issued w ++ [HeadBucketCommand (bucket cfg)])%list
                  (CreateBucketCommand (bucket cfg))) as [t|].
      * destruct B as [w1 [E I]].
        rewrite (onModuleInit_bucket_rejected store cfg w w1 t E).
        eexists. split; [exact I|]. repeat constructor.
      * destruct B as [w1 [E I]].
        destruct (onModuleInit_after_bucket store cfg w w1 E) as [w2 [E2 I2]].
        rewrite E2. cbn [snd]. rewrite I2, I, <- app_assoc.
        eexists. split; [reflexivity|]. repeat constructor.
    + destruct B as [w1 [E I]].
      destruct (onModuleInit_after_bucket store cfg w w1 E) as [w2 [E2 I2]].
      rewrite E2. cbn [snd]. rewrite I2, I, <- app_assoc.
      eexists. split; [reflexivity|]. repeat constructor.
  - unfold uploadImage.
    destruct (uploadObject_run store cfg (imagePrefix cfg ++ "/" ++ filename)
                body contentType w) as [U _].
    eexists. split.
    + unfold bind at 1.
      destruct (uploadObject store cfg (imagePrefix cfg ++ "/" ++ filename)
                  body contentType w) as [[k|t] w1]; cbn in *; exact U.
    + repeat constructor.
  - unfold delete. run. ask_store; eexists; (split; [reflexivity|]);
      repeat constructor.
Qed.

End S3More.

(* ================================================================== *)
(** * Further facts: the menu query hook *)
(* ================================================================== *)

Module MenuMore.
Import Menu MenuFacts.

(** X17: as long as the identifier the hook reads at fetch time is the one
    it read when it was set up (always so for a plain string), a fetch files
    the menu of that identifier under ['menu', identifier], and a lookup of
    that key returns it. *)
Theorem useGetMenu_fetch_lookup (Menu Response : Type)
    (http : Request -> Response) (json : Response -> Menu)
    (refs now : Refs) (restaurantId : MaybeRef) (cache : QueryCache Menu) :
  unref now restaurantId = unref refs restaurantId ->
  let r := unref refs restaurantId in
  let q := useGetMenu Menu Response http json refs restaurantId in
  queryKey Menu q = ["menu"; r]
  /\ cached Menu (fetch Menu q now cache) ["menu"; r]
     = Some (json (http {| method := GET; url := "/api/v1/menu/" ++ r |})).
Proof.
  intros E. cbv zeta. split; [reflexivity|].
  unfold fetch. cbn [cached useGetMenu queryKey queryFn].
  unfold MENU_QUERY_KEYS_byRestaurant, MENU_QUERY_KEYS_all. cbn [app].
  rewrite keyEqb_refl, E. reflexivity.
Qed.

Lemma useGetMenu_fetch_lookup_witness :
  let refs : Refs := fun _ => "7" in
  let now : Refs := setRef refs 1 "8" in
  unref now (IsRef 0) = unref refs (IsRef 0)
  /\ cached string
       (fetch string
          (useGetMenu string Request (fun req => req) url refs (IsRef 0))
          now [])
       ["menu"; "7"]
     = Some "/api/v1/menu/7".
Proof.
  cbv zeta. split; [reflexivity|].
  apply (useGetMenu_fetch_lookup string Request (fun req => req) url
           (fun _ => "7") (setRef (fun _ => "7") 1 "8") (IsRef 0) []).
  reflexivity.
Defined.

End MenuMore.

(* ================================================================== *)
(** * Further facts: the bootstrap of the server *)
(* ================================================================== *)

Module MainMore.
Import Config Main ConfigFacts ConfigMore.

Lemma isProduction_production (config : NestConfigService) (raw : string) :
  config "NODE_ENVIRONMENT" = Some raw -> trim raw = "production" ->
  isProduction config = true.
Proof.
  intros C T. unfold isProduction, nodeEnv. apply String.eqb_eq.
  destruct (getOr_cases config "NODE_ENVIRONMENT" "development")
    as [[U E]|[raw' [C' [B E]]]]; rewrite E.
  - unfold unsetOrBlank in U. rewrite C in U. rewrite U in T. discriminate.
  - congruence.
Qed.

Lemma isProduction_decide (config : NestConfigService) :
  isProduction config = false
  <-> ~ exists raw, config "NODE_ENVIRONMENT" = Some raw
                    /\ trim raw = "production".
Proof.
  assert (R : forall raw,
             (config "NODE_ENVIRONMENT" = Some raw /\ trim raw = "production")
             -> isProduction config = true).
  { intros raw [C T]. now apply (isProduction_production config raw). }
  assert (L : isProduction config = true ->
              exists raw, config "NODE_ENVIRONMENT" = Some raw
                          /\ trim raw = "production").
  { unfold isProduction, nodeEnv. rewrite String.eqb_eq.
    destruct (getOr_cases config "NODE_ENVIRONMENT" "development")
      as [[U E]|[raw' [C' [B E]]]]; rewrite E; [discriminate|].
    intros T. now exists raw'. }
  split.
  - intros F [raw H]. rewrite (R raw H) in F. discriminate.
  - intros N. destruct (isProduction config); [|reflexivity].
    exfalso. apply N. now apply L.
Qed.

(** X18: unless NODE_ENVIRONMENT, trimmed, is exactly 'production', the
    server starts in its open configuration: the Swagger document and its UI
    under '/api' are registered, cookies are not marked secure and are
    SameSite 'lax', the content security policy and HSTS are switched off,
    and validation errors keep their messages.  When it is, none of the
    Swagger registrations happens and each of these settings is the strict
    one. *)
Theorem bootstrap_mode (appConfig : NestConfigService)
    (processEnv : string -> option string) :
  let production :=
    exists raw, appConfig "NODE_ENVIRONMENT" = Some raw
                /\ trim raw = "production" in
  let steps := bootstrap appConfig processEnv in
  let cookie (strict : bool) :=
    RegisterCookie
      {| cookie_secret := processEnv "JWT_SECRET"; httpOnly := true;
         secure := strict;
         sameSite := if strict then "strict" else "lax" |} in
  let helmet (strict : bool) :=
    RegisterHelmet
      {| contentSecurityPolicy := if strict then None else Some false;
         crossOriginResourcePolicy := "cross-origin";
         referrerPolicy := "no-referrer";
         hsts := if strict then HstsOn 31536000%N true true else HstsOff;
         global := true |} in
  let pipes (strict : bool) :=
    UseGlobalPipes
      {| whitelist := true; forbidNonWhitelisted := false; transform := true;
         enableImplicitConversion := true;
         disableErrorMessages := strict |} in
  (~ production ->
   filter isSwagger steps
     = [RegisterSwagger "JINAQ API" "1.0.0"; RegisterSwaggerUi "/api"]
   /\ In (cookie false) steps /\ In (helmet false) steps
   /\ In (pipes false) steps)
  /\ (production ->
      filter isSwagger steps = []
      /\ In (cookie true) steps /\ In (helmet true) steps
      /\ In (pipes true) steps).
Proof.
  cbv zeta. split.
  - intros N. apply isProduction_decide in N.
    unfold bootstrap. rewrite N. cbn.
    repeat split; auto 12.
  - intros [raw [C T]].
    unfold bootstrap. rewrite (isProduction_production appConfig raw C T).
    cbn.
    repeat split; auto 12.
Qed.

Lemma bootstrap_mode_witness :
  let appConfig := env [("NODE_ENVIRONMENT", "Production")] in
  (~ exists raw, appConfig "NODE_ENVIRONMENT" = Some raw
                 /\ trim raw = "production")
  /\ filter isSwagger (bootstrap appConfig (fun _ => None))
     = [RegisterSwagger "JINAQ API" "1.0.0"; RegisterSwaggerUi "/api"].
Proof.
  cbv zeta.
  assert (N : ~ exists raw,
                env [("NODE_ENVIRONMENT", "Production")] "NODE_ENVIRONMENT"
                = Some raw /\ trim raw = "production").
  { intros [raw [C T]]. inversion C; subst raw. discriminate. }
  split; [exact N|].
  apply (proj1 (bootstrap_mode (env [("NODE_ENVIRONMENT", "Production")])
                  (fun _ => None)) N).
Defined.

End MainMore.
